(** * Soulseer admin panel: readers/models.py and readers/admin.py

    A shallow embedding of the three Django models (ReaderProfile, Product,
    VirtualGift) and of the three ModelAdmin classes that manage them, with
    the two save hooks that talk to Stripe and to the Node.js backend.

    Python values are modelled as follows:
    - [str] as [string]; truthiness of a string is non-emptiness;
    - [decimal.Decimal] (finite values) as a coefficient and an exponent;
    - JSON values as the inductive [json];
    - a database table as a finite map from primary key to row;
    - effects (database, stdout, outgoing requests, exceptions) through the
      monad [M] over the state [World]; the answers of the external services
      come from an environment [Env].

    Taken for granted: the [stripe] and [requests] packages are installed,
    every call to them answers or raises, the only statements the database
    refuses are those that break a UNIQUE constraint, and rows are never
    deleted. *)

From Stdlib Require Import ZArith QArith Qpower Qround Qabs Ascii String.
From stdpp Require Import gmap strings list fin_maps sorting.

Local Open Scope string_scope.
Local Open Scope list_scope.
Local Open Scope Z_scope.

(** ** Python strings *)

(** [bool(s)] for a [str]. *)
Definition truthy (s : string) : bool :=
  match s with
  | EmptyString => false
  | String _ _ => true
  end.

(** [c.upper()] on one character; only ASCII letters are covered, every
    other byte is left as it is (Python also maps letters beyond ASCII). *)
Definition upper_ascii (c : ascii) : ascii :=
  let n := nat_of_ascii c in
  if ((97 <=? n) && (n <=? 122))%nat then ascii_of_nat (n - 32) else c.

(** [s.upper()]. *)
Fixpoint upper (s : string) : string :=
  match s with
  | EmptyString => EmptyString
  | String c s' => String (upper_ascii c) (upper s')
  end.

(** The double-quote character, which the HTML template uses. *)
Definition dquote : string := String "034"%char EmptyString.

(** [html.escape(s)]: the five replacements of Django's [conditional_escape]
    on a plain string. *)
Fixpoint escape (s : string) : string :=
  match s with
  | EmptyString => EmptyString
  | String c s' =>
      (if Ascii.eqb c "&"%char then "&amp;"
       else if Ascii.eqb c "<"%char then "&lt;"
       else if Ascii.eqb c ">"%char then "&gt;"
       else if Ascii.eqb c "034"%char then "&quot;"
       else if Ascii.eqb c "'"%char then "&#x27;"
       else String c EmptyString) +:+ escape s'
  end.

(** [template.format( *args )] for a template whose only replacement fields are
    the automatic [{}]; [None] is the [IndexError] of a field without an
    argument. *)
Fixpoint str_format (template : string) (args : list string) : option string :=
  match template with
  | EmptyString => Some EmptyString
  | String "{" (String "}" rest) =>
      match args with
      | a :: args' => (fun r => a +:+ r) <$> str_format rest args'
      | [] => None
      end
  | String c rest => String c <$> str_format rest args
  end.

(** ** decimal.Decimal *)

(** A finite [Decimal]: the number [coeff * 10 ^ expo].  [Decimal('9.99')] is
    [{| coeff := 999; expo := -2 |}].  NaN, the infinities and the exponent
    limits of the context (beyond [10 ^ 999999]) are outside the model: the
    fields below are [DecimalField]s, whose validators accept none of them. *)
Record decimal := Decimal { coeff : Z; expo : Z }.

(** The rational number a decimal denotes. *)
Definition decimal_value (d : decimal) : Q :=
  (inject_Z (coeff d) * Qpower (inject_Z 10) (expo d))%Q.

(** [Decimal(n)] for an [int]. *)
Definition decimal_of_int (n : Z) : decimal := Decimal n 0.

(** [getcontext().prec], at its default. *)
Definition prec : Z := 28.

Fixpoint ndigits_aux (fuel : nat) (n : Z) : Z :=
  match fuel with
  | O => 1
  | S fuel' => if n <? 10 then 1 else 1 + ndigits_aux fuel' (n / 10)
  end.

(** The number of decimal digits of [n >= 0] ([len(str(n))]). *)
Definition ndigits (n : Z) : Z := ndigits_aux (Z.to_nat (Z.log2 n)) n.

(** [n / 10 ^ p] rounded to the nearest integer, ties to even (the context's
    ROUND_HALF_EVEN), for [n >= 0] and [p > 0]. *)
Definition round_half_even (n p : Z) : Z :=
  let q := n / 10 ^ p in
  let r := n mod 10 ^ p in
  let half := 5 * 10 ^ (p - 1) in
  if (half <? r) || ((r =? half) && Z.odd q) then q + 1 else q.

(** [Decimal._fix]: a result whose coefficient has more than [prec] digits is
    rounded to [prec] digits. *)
Definition decimal_fix (d : decimal) : decimal :=
  let n := Z.abs (coeff d) in
  if n <? 10 ^ prec then d
  else
    let shift := ndigits n - prec in
    let q := round_half_even n shift in
    if q =? 10 ^ prec
    then Decimal (Z.sgn (coeff d) * 10 ^ (prec - 1)) (expo d + shift + 1)
    else Decimal (Z.sgn (coeff d) * q) (expo d + shift).

(** [a * b] on decimals. *)
Definition decimal_mul (a b : decimal) : decimal :=
  decimal_fix (Decimal (coeff a * coeff b) (expo a + expo b)).

(** [int(d)]: truncation towards zero. *)
Definition decimal_int (d : decimal) : Z :=
  if 0 <=? expo d then coeff d * 10 ^ expo d
  else Z.quot (coeff d) (10 ^ (- expo d)).

(** [a <= b] on decimals, the order a [DecimalField] column sorts by. *)
Definition decimal_le (a b : decimal) : Prop :=
  (decimal_value a <= decimal_value b)%Q.

#[global] Instance decimal_le_dec : RelDecision decimal_le.
Proof.
  intros a b. unfold decimal_le.
  destruct (Qlt_le_dec (decimal_value b) (decimal_value a)) as [Hlt | Hle].
  - right. intros Hle. exact (Qlt_not_le _ _ Hlt Hle).
  - left. exact Hle.
Defined.

(** What [DecimalValidator(max_digits, decimal_places)] accepts: at most
    [decimal_places] digits after the point and at most
    [max_digits - decimal_places] before it. *)
Definition DecimalField_valid (max_digits decimal_places : Z) (d : decimal) : Prop :=
  - decimal_places <= expo d /\
  Z.abs (coeff d) * 10 ^ (expo d + decimal_places) < 10 ^ max_digits.

(** ** JSON values *)

(** A value of a [JSONField], or the [json=] body of a request.  [JFloat d]
    is the Python float [float(d)], kept symbolic. *)
#[local] Unset Elimination Schemes.
Inductive json :=
| JNull
| JBool (b : bool)
| JInt (n : Z)
| JFloat (d : decimal)
| JStr (s : string)
| JList (items : list json)
| JDict (items : list (string * json)).
#[local] Set Elimination Schemes.

(** ** readers/models.py: the three models

    Each model class is a module holding the record of its fields.  [pk] is
    the automatic primary key ([None] until the first save); the two
    timestamps are seconds on the server clock and are written by [save]. *)

Module ReaderProfile.
Record t := {
  pk : option Z;
  clerk_id : string;                (* CharField(unique=True) *)
  email : string;                   (* EmailField(unique=True) *)
  display_name : string;
  bio : string;
  profile_picture : option string;
  specialties : json;               (* JSONField(default=list) *)
  chat_rate : decimal;
  call_rate : decimal;
  video_rate : decimal;
  status : string;                  (* CharField(choices=STATUS_CHOICES) *)
  is_online : bool;
  is_active : bool;
  total_earnings : decimal;
  pending_payout : decimal;
  stripe_account_id : string;
  average_rating : decimal;
  total_reviews : Z;
  created_at : Z;                   (* auto_now_add *)
  updated_at : Z;                   (* auto_now *)
}.

Definition SPECIALTY_CHOICES : list (string * string) :=
  [("tarot", "Tarot Reading"); ("astrology", "Astrology");
   ("mediumship", "Mediumship"); ("numerology", "Numerology");
   ("palmistry", "Palmistry"); ("crystals", "Crystal Healing");
   ("energy", "Energy Reading"); ("dreams", "Dream Interpretation")].

Definition STATUS_CHOICES : list (string * string) :=
  [("online", "Online"); ("offline", "Offline"); ("busy", "Busy")].

Definition with_pk (k : Z) (r : t) : t :=
  {| pk := Some k; clerk_id := clerk_id r; email := email r;
     display_name := display_name r; bio := bio r;
     profile_picture := profile_picture r; specialties := specialties r;
     chat_rate := chat_rate r; call_rate := call_rate r;
     video_rate := video_rate r; status := status r;
     is_online := is_online r; is_active := is_active r;
     total_earnings := total_earnings r; pending_payout := pending_payout r;
     stripe_account_id := stripe_account_id r;
     average_rating := average_rating r; total_reviews := total_reviews r;
     created_at := created_at r; updated_at := updated_at r |}.

(** The [pre_save] of the two timestamp fields: [auto_now_add] writes
    [created_at] when the row is added, [auto_now] writes [updated_at] on
    every save. *)
Definition pre_save (add : bool) (now : Z) (r : t) : t :=
  {| pk := pk r; clerk_id := clerk_id r; email := email r;
     display_name := display_name r; bio := bio r;
     profile_picture := profile_picture r; specialties := specialties r;
     chat_rate := chat_rate r; call_rate := call_rate r;
     video_rate := video_rate r; status := status r;
     is_online := is_online r; is_active := is_active r;
     total_earnings := total_earnings r; pending_payout := pending_payout r;
     stripe_account_id := stripe_account_id r;
     average_rating := average_rating r; total_reviews := total_reviews r;
     created_at := if add then now else created_at r; updated_at := now |}.

(** [Meta.ordering = ['-created_at']]: [a] may come before [b]. *)
Definition ordering (a b : t) : Prop := created_at b <= created_at a.
End ReaderProfile.

Module Product.
Record t := {
  pk : option Z;
  stripe_product_id : string;       (* CharField(unique=True, blank=True) *)
  name : string;
  description : string;
  product_type : string;            (* CharField(choices=PRODUCT_TYPE_CHOICES) *)
  price : decimal;                  (* DecimalField(max_digits=10, decimal_places=2) *)
  reader : option Z;                (* ForeignKey(ReaderProfile, null=True) *)
  inventory_count : option Z;
  is_active : bool;
  images : json;
  metadata : json;
  created_at : Z;                   (* auto_now_add *)
  updated_at : Z;                   (* auto_now *)
}.

Definition PRODUCT_TYPE_CHOICES : list (string * string) :=
  [("service", "Service"); ("digital", "Digital Product");
   ("physical", "Physical Product")].

Definition with_pk (k : Z) (p : t) : t :=
  {| pk := Some k; stripe_product_id := stripe_product_id p; name := name p;
     description := description p; product_type := product_type p;
     price := price p; reader := reader p;
     inventory_count := inventory_count p; is_active := is_active p;
     images := images p; metadata := metadata p;
     created_at := created_at p; updated_at := updated_at p |}.

Definition pre_save (add : bool) (now : Z) (p : t) : t :=
  {| pk := pk p; stripe_product_id := stripe_product_id p; name := name p;
     description := description p; product_type := product_type p;
     price := price p; reader := reader p;
     inventory_count := inventory_count p; is_active := is_active p;
     images := images p; metadata := metadata p;
     created_at := if add then now else created_at p; updated_at := now |}.

(** [obj.stripe_product_id = v]. *)
Definition set_stripe_product_id (v : string) (p : t) : t :=
  {| pk := pk p; stripe_product_id := v; name := name p;
     description := description p; product_type := product_type p;
     price := price p; reader := reader p;
     inventory_count := inventory_count p; is_active := is_active p;
     images := images p; metadata := metadata p;
     created_at := created_at p; updated_at := updated_at p |}.

(** [Meta.ordering = ['-created_at']]. *)
Definition ordering (a b : t) : Prop := created_at b <= created_at a.
End Product.

Module VirtualGift.
Record t := {
  pk : option Z;
  name : string;
  description : string;
  price : decimal;
  icon_url : string;
  animation_url : string;
  is_active : bool;
  created_at : Z;                   (* auto_now_add *)
}.

Definition with_pk (k : Z) (g : t) : t :=
  {| pk := Some k; name := name g; description := description g;
     price := price g; icon_url := icon_url g;
     animation_url := animation_url g; is_active := is_active g;
     created_at := created_at g |}.

Definition pre_save (add : bool) (now : Z) (g : t) : t :=
  {| pk := pk g; name := name g; description := description g;
     price := price g; icon_url := icon_url g;
     animation_url := animation_url g; is_active := is_active g;
     created_at := if add then now else created_at g |}.

(** [Meta.ordering = ['price']]. *)
Definition ordering (a b : t) : Prop := decimal_le (price a) (price b).
End VirtualGift.

(** ** The world around the admin panel *)

(** A raised Python exception (an instance of a subclass of [Exception]):
    its class name and [str(e)]. *)
Inductive exn := Exception (cls : string) (msg : string).

Definition exn_str (e : exn) : string :=
  match e with Exception _ msg => msg end.

(** What the process does that can be observed from outside, in the order it
    happens.  A request to an external service is recorded with its outcome:
    the exception raised by the client library, or the part of the answer
    the code reads ([product.id], [price.id], [response.status_code]). *)
Inductive Event :=
| StripeProductCreate (name description : string) (outcome : exn + string)
| StripePriceCreate (product : string) (unit_amount : Z) (currency : string)
    (outcome : exn + string)
| RequestsPost (url : string) (body : json) (outcome : exn + Z)
| Print (line : string)
| DbInsert (table : string) (pk : Z)
| DbUpdate (table : string) (pk : Z).

(** The surroundings the code cannot control: the process environment and
    the behaviour of the two remote services, which may depend on the API
    key in use and on everything that happened before. *)
Record Env := {
  environ : gmap string string;
  stripe_Product_create :
    option string → list Event → string → string → exn + string;
  stripe_Price_create :
    option string → list Event → string → Z → string → exn + string;
  requests_post : list Event → string → json → exn + Z;
}.

(** The state the code reads and writes: the three tables, the server
    clock, the module attribute [stripe.api_key], and the events so far
    (oldest first). *)
Record World := {
  readers : gmap Z ReaderProfile.t;
  products : gmap Z Product.t;
  gifts : gmap Z VirtualGift.t;
  clock : Z;
  stripe_api_key : option string;
  trace : list Event;
}.

Definition set_readers (m : gmap Z ReaderProfile.t) (w : World) : World :=
  {| readers := m; products := products w; gifts := gifts w; clock := clock w;
     stripe_api_key := stripe_api_key w; trace := trace w |}.

Definition set_products (m : gmap Z Product.t) (w : World) : World :=
  {| readers := readers w; products := m; gifts := gifts w; clock := clock w;
     stripe_api_key := stripe_api_key w; trace := trace w |}.

Definition set_gifts (m : gmap Z VirtualGift.t) (w : World) : World :=
  {| readers := readers w; products := products w; gifts := m; clock := clock w;
     stripe_api_key := stripe_api_key w; trace := trace w |}.

Definition set_stripe_api_key (k : option string) (w : World) : World :=
  {| readers := readers w; products := products w; gifts := gifts w;
     clock := clock w; stripe_api_key := k; trace := trace w |}.

Definition emit (e : Event) (w : World) : World :=
  {| readers := readers w; products := products w; gifts := gifts w;
     clock := clock w; stripe_api_key := stripe_api_key w;
     trace := trace w ++ [e] |}.

(** ** The monad of Python statements *)

(** A statement either completes with a value or raises; the world it leaves
    behind is kept in both cases. *)
Inductive Result (A : Type) :=
| Return (a : A)
| Raise (e : exn).
Arguments Return {A} a.
Arguments Raise {A} e.

Definition M (A : Type) : Type := Env → World → Result A * World.

#[global] Instance M_ret : MRet M := λ A a _ w, (Return a, w).

#[global] Instance M_bind : MBind M := λ A B f m env w,
  match m env w with
  | (Return a, w') => f a env w'
  | (Raise e, w') => (Raise e, w')
  end.

(** [try: body / except Exception as e: handler(e)]. *)
Definition try_except {A} (body : M A) (handler : exn → M A) : M A :=
  λ env w,
    match body env w with
    | (Return a, w') => (Return a, w')
    | (Raise e, w') => handler e env w'
    end.

(** [print(line)]. *)
Definition print (line : string) : M () :=
  λ _ w, (Return (), emit (Print line) w).

(** [os.getenv(key)] and [os.getenv(key, default)]. *)
Definition os_getenv (key : string) : M (option string) :=
  λ env w, (Return (environ env !! key), w).

Definition os_getenv_default (key dflt : string) : M string :=
  λ env w, (Return (default dflt (environ env !! key)), w).

(** [stripe.api_key = key]. *)
Definition assign_stripe_api_key (key : option string) : M () :=
  λ _ w, (Return (), set_stripe_api_key key w).

(** A call of a client library: the outcome is the environment's, the event
    is recorded, and an exception outcome is raised. *)
Definition external {A} (outcome : exn + A) (ev : Event) : M A :=
  λ _ w,
    (match outcome with inl e => Raise e | inr a => Return a end, emit ev w).

(** [stripe.Product.create(name=..., description=...).id]. *)
Definition stripe_Product_create_call (name description : string) : M string :=
  λ env w,
    let r := stripe_Product_create env (stripe_api_key w) (trace w)
               name description in
    external r (StripeProductCreate name description r) env w.

(** [stripe.Price.create(product=..., unit_amount=..., currency=...).id]. *)
Definition stripe_Price_create_call
    (product : string) (unit_amount : Z) (currency : string) : M string :=
  λ env w,
    let r := stripe_Price_create env (stripe_api_key w) (trace w)
               product unit_amount currency in
    external r (StripePriceCreate product unit_amount currency r) env w.

(** [requests.post(url, json=body).status_code]. *)
Definition requests_post_call (url : string) (body : json) : M Z :=
  λ env w,
    let r := requests_post env (trace w) url body in
    external r (RequestsPost url body r) env w.

(** ** django.db.models.Model

    What the base class needs to know of a model: its table, its primary
    key, the [pre_save] of its fields, the columns declared [unique=True]
    and [Meta.ordering]. *)
Class Model (A : Type) := {
  db_table : string;
  get_pk : A → option Z;
  Model_with_pk : Z → A → A;
  Model_pre_save : bool → Z → A → A;
  unique_columns : list (string * (A → string));
  ordering : relation A;
  ordering_dec :: RelDecision ordering;
  table : World → gmap Z A;
  set_table : gmap Z A → World → World;
}.

#[global] Instance ReaderProfile_Model : Model ReaderProfile.t := {
  db_table := "readers_readerprofile";
  get_pk := ReaderProfile.pk;
  Model_with_pk := ReaderProfile.with_pk;
  Model_pre_save := ReaderProfile.pre_save;
  unique_columns :=
    [("clerk_id", ReaderProfile.clerk_id); ("email", ReaderProfile.email)];
  ordering := ReaderProfile.ordering;
  ordering_dec := λ a b,
    Z_le_dec (ReaderProfile.created_at b) (ReaderProfile.created_at a);
  table := readers;
  set_table := set_readers;
}.

#[global] Instance Product_Model : Model Product.t := {
  db_table := "readers_product";
  get_pk := Product.pk;
  Model_with_pk := Product.with_pk;
  Model_pre_save := Product.pre_save;
  unique_columns := [("stripe_product_id", Product.stripe_product_id)];
  ordering := Product.ordering;
  ordering_dec := λ a b, Z_le_dec (Product.created_at b) (Product.created_at a);
  table := products;
  set_table := set_products;
}.

#[global] Instance VirtualGift_Model : Model VirtualGift.t := {
  db_table := "readers_virtualgift";
  get_pk := VirtualGift.pk;
  Model_with_pk := VirtualGift.with_pk;
  Model_pre_save := VirtualGift.pre_save;
  unique_columns := [];
  ordering := VirtualGift.ordering;
  ordering_dec := λ a b,
    decimal_le_dec (VirtualGift.price a) (VirtualGift.price b);
  table := gifts;
  set_table := set_gifts;
}.

(** The key the database gives to a new row. *)
Definition next_pk {A} (rows : gmap Z A) : Z :=
  1 + map_fold (λ k _ acc, Z.max k acc) 0 rows.

(** A UNIQUE column of [row] (stored under key [k]) holds a value that
    another row of the table already holds.  The columns are NOT NULL
    strings, so the empty string is a value like any other. *)
Definition unique_taken {A}
    (col : A → string) (k : Z) (row : A) (rows : gmap Z A) : bool :=
  existsb (λ kr, bool_decide (kr.1 ≠ k) && bool_decide (col kr.2 = col row))
          (map_to_list rows).

(** [obj.save()]: an INSERT when the object has no row yet, an UPDATE
    otherwise; the database refuses the statement with an [IntegrityError]
    when a UNIQUE column would hold a value twice.  The saved object (with
    its key and timestamps) is returned.  The row is kept as the object
    holds it: a decimal keeps the exponent it was given, where the database
    hands the same number back at the decimal places of its field.  When
    several UNIQUE columns clash, the first declared is named; which one a
    database names is its own choice. *)
Definition Model_save `{Model A} (obj : A) : M A :=
  λ _ w,
    let rows := table w in
    let k := default (next_pk rows) (get_pk obj) in
    let add := match rows !! k with None => true | Some _ => false end in
    let row := Model_with_pk k (Model_pre_save add (clock w) obj) in
    match List.find (λ c, unique_taken c.2 k row rows) unique_columns with
    | Some c =>
        (Raise (Exception "IntegrityError"
                  ("UNIQUE constraint failed: " +:+ db_table +:+ "." +:+ c.1)),
         w)
    | None =>
        (Return row,
         set_table (<[k := row]> rows)
           (emit (if add then DbInsert db_table k else DbUpdate db_table k) w))
    end.

(** [Model.objects.all()], evaluated: the rows in [Meta.ordering]. *)
Definition objects_all `{Model A} (w : World) : list A :=
  merge_sort ordering (map_to_list (table w)).*2.

(** ** django.contrib.admin.ModelAdmin *)

(** [ModelAdmin.save_model(request, obj, form, change)], which the
    subclasses reach through [super()]: it saves the object. *)
Definition ModelAdmin_save_model `{Model A} (obj : A) (change : bool) : M A :=
  Model_save obj.

(** [format_html(template, *args)]: every argument is escaped, then
    substituted for a [{}] of the template. *)
Definition format_html (template : string) (args : list string) : option string :=
  str_format template (escape <$> args).

(** ** readers/admin.py *)

Module ReaderProfileAdmin.
Import ReaderProfile.

Definition readonly_fields : list string :=
  ["clerk_id"; "total_earnings"; "pending_payout"; "average_rating";
   "total_reviews"; "created_at"; "updated_at"].

(** The local dictionary of [status_badge]. *)
Definition colors : gmap string string :=
  {[ "online" := "green"; "offline" := "gray"; "busy" := "orange" ]}.

Definition badge_template : string :=
  "<span style=" +:+ dquote +:+
  "background-color: {}; color: white; padding: 3px 10px; border-radius: 3px;"
  +:+ dquote +:+ ">{}</span>".

(** [status_badge(self, obj)]; [None] would be an exception of
    [str.format]. *)
Definition status_badge (obj : t) : option string :=
  format_html badge_template
    [default "gray" (colors !! status obj); upper (status obj)].

(** The [json=] argument of the request: the rates go through [float]. *)
Definition request_body (obj : t) : json :=
  JDict [("clerk_id", JStr (clerk_id obj));
         ("email", JStr (email obj));
         ("display_name", JStr (display_name obj));
         ("bio", JStr (bio obj));
         ("specialties", specialties obj);
         ("chat_rate", JFloat (chat_rate obj));
         ("call_rate", JFloat (call_rate obj));
         ("video_rate", JFloat (video_rate obj))].

(** The suite of the [try] statement of [save_model]. *)
Definition save_model_try (obj : t) (change : bool) (backend_url : string) : M () :=
  if negb change then
    status_code ← requests_post_call
      (backend_url +:+ "/api/admin/readers") (request_body obj);
    if bool_decide (status_code = 201)
    then print ("Reader " +:+ display_name obj +:+ " synced with backend")
    else mret ()
  else mret ().

(** The suite of its [except Exception as e] clause. *)
Definition save_model_except (e : exn) : M () :=
  print ("Error syncing reader with backend: " +:+ exn_str e).

(** [save_model(self, request, obj, form, change)].  The object is saved
    first; an exception of that step leaves the method at once.  The
    result is [obj] as the caller finds it afterwards. *)
Definition save_model (obj : t) (change : bool) : M t :=
  obj ← ModelAdmin_save_model obj change;
  backend_url ← os_getenv_default "BACKEND_API_URL" "http://localhost:5000";
  try_except (save_model_try obj change backend_url) save_model_except;;
  mret obj.
End ReaderProfileAdmin.

Module ProductAdmin.
Import Product.

Definition readonly_fields : list string :=
  ["stripe_product_id"; "created_at"; "updated_at"].

(** [int(obj.price * 100)]. *)
Definition unit_amount (obj : t) : Z :=
  decimal_int (decimal_mul (price obj) (decimal_of_int 100)).

(** The suite of the [try] statement of [save_model].  [obj] is assigned
    to only by its last statement, so an exception leaves the object as it
    was; the result is the object after the suite. *)
Definition save_model_try (obj : t) : M t :=
  if negb (truthy (stripe_product_id obj)) then
    product ← stripe_Product_create_call (name obj) (description obj);
    _ ← stripe_Price_create_call product (unit_amount obj) "usd";
    mret (set_stripe_product_id product obj)
  else mret obj.

(** The suite of its [except Exception as e] clause. *)
Definition save_model_except (obj : t) (e : exn) : M t :=
  print ("Error syncing with Stripe: " +:+ exn_str e);; mret obj.

(** [save_model(self, request, obj, form, change)]; the result is [obj] as
    the caller finds it afterwards. *)
Definition save_model (obj : t) (change : bool) : M t :=
  api_key ← os_getenv "STRIPE_SECRET_KEY";
  assign_stripe_api_key api_key;;
  obj ← try_except (save_model_try obj) (save_model_except obj);
  ModelAdmin_save_model obj change.

(** The validated data of the admin form: one entry per field of
    [fieldsets] that is not in [readonly_fields]. *)
Module Form.
Record t := {
  name : string;
  description : string;
  product_type : string;
  price : decimal;
  reader : option Z;
  inventory_count : option Z;
  is_active : bool;
  images : json;
  metadata : json;
}.
End Form.

(** [Product()]: the instance the add view starts from. *)
Definition new : t :=
  {| pk := None; stripe_product_id := ""; name := ""; description := "";
     product_type := ""; price := decimal_of_int 0; reader := None;
     inventory_count := None; is_active := true; images := JList [];
     metadata := JDict []; created_at := 0; updated_at := 0 |}.

(** [form.save(commit=False)]: the form's data is written into the
    instance; the read-only fields keep the instance's values. *)
Definition construct_instance (form : Form.t) (instance : t) : t :=
  {| pk := pk instance;
     stripe_product_id := stripe_product_id instance;
     name := Form.name form;
     description := Form.description form;
     product_type := Form.product_type form;
     price := Form.price form;
     reader := Form.reader form;
     inventory_count := Form.inventory_count form;
     is_active := Form.is_active form;
     images := Form.images form;
     metadata := Form.metadata form;
     created_at := created_at instance;
     updated_at := updated_at instance |}.

(** A valid form posted to the add view. *)
Definition add_view (form : Form.t) : M () :=
  save_model (construct_instance form new) false;; mret ().

(** A valid form posted to the change view of the object [object_id];
    without such an object the view answers with a redirect and saves
    nothing. *)
Definition change_view (object_id : Z) (form : Form.t) : M () :=
  λ env w,
    match products w !! object_id with
    | Some obj =>
        (save_model (construct_instance form obj) true;; mret ()) env w
    | None => (Return (), w)
    end.
End ProductAdmin.

(** ** Requests to the admin site *)

Inductive Request :=
| AddProduct (form : ProductAdmin.Form.t)
| ChangeProduct (object_id : Z) (form : ProductAdmin.Form.t).

Definition handle (r : Request) : M () :=
  match r with
  | AddProduct form => ProductAdmin.add_view form
  | ChangeProduct object_id form => ProductAdmin.change_view object_id form
  end.

(** The requests are served one after the other; an exception that leaves a
    view ends that request only.  The clock is the world's: the code reads
    it and never moves it, so a series is served at the time of the world
    it starts from. *)
Fixpoint serve (requests : list Request) (env : Env) (w : World) : World :=
  match requests with
  | [] => w
  | r :: requests' => serve requests' env (handle r env w).2
  end.

(** ** Notions used in the statements *)

(** The events a statement adds to the trace. *)
Definition new_events {A} (m : M A) (env : Env) (w : World) : list Event :=
  drop (length (trace w)) (trace (m env w).2).

(** A request to Stripe or to the backend. *)
Definition is_external (e : Event) : bool :=
  match e with
  | StripeProductCreate _ _ _ | StripePriceCreate _ _ _ _ | RequestsPost _ _ _ => true
  | Print _ | DbInsert _ _ | DbUpdate _ _ => false
  end.

(** The value [save_model] assigns to [stripe.api_key]. *)
Definition configured_key (env : Env) : option string :=
  environ env !! "STRIPE_SECRET_KEY".

(** The world once [stripe.api_key] is assigned. *)
Definition keyed (env : Env) (w : World) : World :=
  set_stripe_api_key (configured_key env) w.

(** The address of the backend's reader endpoint. *)
Definition readers_url (env : Env) : string :=
  default "http://localhost:5000" (environ env !! "BACKEND_API_URL")
  +:+ "/api/admin/readers".

(** The line the reader hook prints for an exception. *)
Definition backend_error_line (e : exn) : string :=
  "Error syncing reader with backend: " +:+ exn_str e.

(** The line the Stripe hook prints for an exception. *)
Definition stripe_error_line (e : exn) : string :=
  "Error syncing with Stripe: " +:+ exn_str e.

(** What the [try] statement of [ProductAdmin.save_model] does to a record,
    given the API key in use and the events so far: the record it leaves
    and the events it adds, according to the answers of Stripe. *)
Inductive hook_outcome (env : Env) (key : option string) (tr : list Event)
    (obj : Product.t) : Product.t → list Event → Prop :=
| hook_skipped :
    Product.stripe_product_id obj ≠ "" →
    hook_outcome env key tr obj obj []
| hook_product_failed (e : exn) :
    Product.stripe_product_id obj = "" →
    stripe_Product_create env key tr (Product.name obj) (Product.description obj)
    = inl e →
    hook_outcome env key tr obj obj
      [StripeProductCreate (Product.name obj) (Product.description obj) (inl e);
       Print (stripe_error_line e)]
| hook_price_failed (pid : string) (e : exn) :
    Product.stripe_product_id obj = "" →
    stripe_Product_create env key tr (Product.name obj) (Product.description obj)
    = inr pid →
    stripe_Price_create env key
      (tr ++ [StripeProductCreate (Product.name obj) (Product.description obj)
                (inr pid)])
      pid (ProductAdmin.unit_amount obj) "usd"
    = inl e →
    hook_outcome env key tr obj obj
      [StripeProductCreate (Product.name obj) (Product.description obj) (inr pid);
       StripePriceCreate pid (ProductAdmin.unit_amount obj) "usd" (inl e);
       Print (stripe_error_line e)]
| hook_synced (pid price_id : string) :
    Product.stripe_product_id obj = "" →
    stripe_Product_create env key tr (Product.name obj) (Product.description obj)
    = inr pid →
    stripe_Price_create env key
      (tr ++ [StripeProductCreate (Product.name obj) (Product.description obj)
                (inr pid)])
      pid (ProductAdmin.unit_amount obj) "usd"
    = inr price_id →
    hook_outcome env key tr obj (Product.set_stripe_product_id pid obj)
      [StripeProductCreate (Product.name obj) (Product.description obj) (inr pid);
       StripePriceCreate pid (ProductAdmin.unit_amount obj) "usd" (inr price_id)].

(** The sync of a product was completed: Stripe created the price. *)
Definition sync_completed (e : Event) : bool :=
  match e with
  | StripePriceCreate _ _ _ (inr _) => true
  | _ => false
  end.

(** Every row of the product table carries the key it is stored under. *)
Definition keys_consistent (w : World) : Prop :=
  ∀ k r, products w !! k = Some r → Product.pk r = Some k.

(** The key under which [obj.save()] stores a product. *)
Definition save_key (obj : Product.t) (w : World) : Z :=
  default (next_pk (products w)) (Product.pk obj).

(** No product stored under another key than [k] holds the identifier [v]. *)
Definition identifier_free (v : string) (k : Z) (w : World) : Prop :=
  ∀ k' r, products w !! k' = Some r → k' ≠ k → Product.stripe_product_id r ≠ v.

(** Stripe's product identifiers are not empty and not held by any row
    other than the one under [k]. *)
Definition stripe_ids_fresh (env : Env) (k : Z) (w : World) : Prop :=
  ∀ key tr name description pid,
    stripe_Product_create env key tr name description = inr pid →
    pid ≠ "" ∧ identifier_free pid k w.

(** The badge: a span in the given colour around the given text. *)
Definition badge_html (color text : string) : string :=
  "<span style=" +:+ dquote +:+ "background-color: " +:+ color +:+
  "; color: white; padding: 3px 10px; border-radius: 3px;" +:+ dquote +:+
  ">" +:+ text +:+ "</span>".

(** The colour table as the specification words it. *)
Definition color_of_status (status : string) : string :=
  if decide (status = "online") then "green"
  else if decide (status = "offline") then "gray"
  else if decide (status = "busy") then "orange"
  else "gray".

(** A price rounded to the nearest whole cent, as the specification words
    the amount (a half cent goes up). *)
Definition round_to_cents (d : decimal) : Q :=
  (inject_Z (Qfloor (decimal_value d * inject_Z 100 + (1 # 2))) / inject_Z 100)%Q.

(** ** Sample data

    The products and the form are as a valid admin form gives them: the two
    JSON fields are required, so neither is empty. *)

Definition empty_world : World :=
  {| readers := ∅; products := ∅; gifts := ∅; clock := 1000;
     stripe_api_key := None; trace := [] |}.

(** Both services answer as they should. *)
Definition env_up : Env :=
  {| environ := {[ "STRIPE_SECRET_KEY" := "sk_test_1" ]};
     stripe_Product_create := λ _ _ _ _, inr "prod_1";
     stripe_Price_create := λ _ _ _ _ _, inr "price_1";
     requests_post := λ _ _ _, inr 201 |}.

(** No API key is configured, so Stripe refuses every call; the backend
    answers 500. *)
Definition env_down : Env :=
  {| environ := ∅;
     stripe_Product_create := λ _ _ _ _,
       inl (Exception "AuthenticationError" "No API key provided.");
     stripe_Price_create := λ _ _ _ _ _,
       inl (Exception "AuthenticationError" "No API key provided.");
     requests_post := λ _ _ _, inr 500 |}.

(** Stripe creates the product and then fails on the price; the backend
    cannot be reached. *)
Definition env_flaky : Env :=
  {| environ := {[ "STRIPE_SECRET_KEY" := "sk_test_1" ]};
     stripe_Product_create := λ _ _ _ _, inr "prod_1";
     stripe_Price_create := λ _ _ _ _ _,
       inl (Exception "APIConnectionError" "Connection reset.");
     requests_post := λ _ _ _,
       inl (Exception "ConnectionError" "Connection refused.") |}.

Definition candle : Product.t :=
  {| Product.pk := None; Product.stripe_product_id := "";
     Product.name := "Candle"; Product.description := "A white candle";
     Product.product_type := "physical"; Product.price := Decimal 999 (-2);
     Product.reader := None; Product.inventory_count := Some 3;
     Product.is_active := true; Product.images := JList [JStr "item.jpg"];
     Product.metadata := JDict [("origin", JStr "shop")]; Product.created_at := 0;
     Product.updated_at := 0 |}.

Definition incense : Product.t :=
  {| Product.pk := None; Product.stripe_product_id := "";
     Product.name := "Incense"; Product.description := "Sandalwood sticks";
     Product.product_type := "physical"; Product.price := Decimal 45 (-1);
     Product.reader := None; Product.inventory_count := None;
     Product.is_active := true; Product.images := JList [JStr "item.jpg"];
     Product.metadata := JDict [("origin", JStr "shop")]; Product.created_at := 0;
     Product.updated_at := 0 |}.

(** A product that was synced before. *)
Definition synced_candle : Product.t :=
  {| Product.pk := Some 1; Product.stripe_product_id := "prod_1";
     Product.name := "Candle"; Product.description := "A white candle";
     Product.product_type := "physical"; Product.price := Decimal 999 (-2);
     Product.reader := None; Product.inventory_count := Some 3;
     Product.is_active := true; Product.images := JList [JStr "item.jpg"];
     Product.metadata := JDict [("origin", JStr "shop")]; Product.created_at := 900;
     Product.updated_at := 900 |}.

(** The candle as it is stored after a save whose sync failed. *)
Definition unsynced_candle : Product.t :=
  {| Product.pk := Some 1; Product.stripe_product_id := "";
     Product.name := "Candle"; Product.description := "A white candle";
     Product.product_type := "physical"; Product.price := Decimal 999 (-2);
     Product.reader := None; Product.inventory_count := Some 3;
     Product.is_active := true; Product.images := JList [JStr "item.jpg"];
     Product.metadata := JDict [("origin", JStr "shop")]; Product.created_at := 900;
     Product.updated_at := 900 |}.

Definition backlog_world : World :=
  {| readers := ∅; products := {[ 1 := unsynced_candle ]}; gifts := ∅;
     clock := 1000; stripe_api_key := None; trace := [] |}.

Definition shop_world : World :=
  {| readers := ∅; products := {[ 1 := synced_candle ]}; gifts := ∅;
     clock := 1000; stripe_api_key := None; trace := [] |}.

Definition candle_form : ProductAdmin.Form.t :=
  {| ProductAdmin.Form.name := "Candle (large)";
     ProductAdmin.Form.description := "A large white candle";
     ProductAdmin.Form.product_type := "physical";
     ProductAdmin.Form.price := Decimal 1299 (-2);
     ProductAdmin.Form.reader := None;
     ProductAdmin.Form.inventory_count := Some 2;
     ProductAdmin.Form.is_active := true;
     ProductAdmin.Form.images := JList [JStr "item.jpg"];
     ProductAdmin.Form.metadata := JDict [("origin", JStr "shop")] |}.

Definition ann : ReaderProfile.t :=
  {| ReaderProfile.pk := None; ReaderProfile.clerk_id := "user_1";
     ReaderProfile.email := "ann@example.com";
     ReaderProfile.display_name := "Ann"; ReaderProfile.bio := "Tarot reader";
     ReaderProfile.profile_picture := None;
     ReaderProfile.specialties := JList [JStr "tarot"];
     ReaderProfile.chat_rate := Decimal 299 (-2);
     ReaderProfile.call_rate := Decimal 399 (-2);
     ReaderProfile.video_rate := Decimal 499 (-2);
     ReaderProfile.status := "offline"; ReaderProfile.is_online := false;
     ReaderProfile.is_active := true;
     ReaderProfile.total_earnings := Decimal 0 (-2);
     ReaderProfile.pending_payout := Decimal 0 (-2);
     ReaderProfile.stripe_account_id := "";
     ReaderProfile.average_rating := Decimal 0 (-2);
     ReaderProfile.total_reviews := 0; ReaderProfile.created_at := 0;
     ReaderProfile.updated_at := 0 |}.

(** Another profile under the clerk id of [ann], with an email of its own. *)
Definition ann_namesake : ReaderProfile.t :=
  {| ReaderProfile.pk := None; ReaderProfile.clerk_id := "user_1";
     ReaderProfile.email := "ann.b@example.com";
     ReaderProfile.display_name := "Ann B."; ReaderProfile.bio := "Astrologer";
     ReaderProfile.profile_picture := None;
     ReaderProfile.specialties := JList [JStr "astrology"];
     ReaderProfile.chat_rate := Decimal 299 (-2);
     ReaderProfile.call_rate := Decimal 399 (-2);
     ReaderProfile.video_rate := Decimal 499 (-2);
     ReaderProfile.status := "offline"; ReaderProfile.is_online := false;
     ReaderProfile.is_active := true;
     ReaderProfile.total_earnings := Decimal 0 (-2);
     ReaderProfile.pending_payout := Decimal 0 (-2);
     ReaderProfile.stripe_account_id := "";
     ReaderProfile.average_rating := Decimal 0 (-2);
     ReaderProfile.total_reviews := 0; ReaderProfile.created_at := 0;
     ReaderProfile.updated_at := 0 |}.

(** ** Further notions *)

(** The key under which [obj.save()] stores a reader profile. *)
Definition reader_save_key (obj : ReaderProfile.t) (w : World) : Z :=
  default (next_pk (readers w)) (ReaderProfile.pk obj).

(** No reader profile stored under another key than [k] has the value [v]
    in the column [col]. *)
Definition reader_column_free
    (col : ReaderProfile.t → string) (v : string) (k : Z) (w : World) : Prop :=
  ∀ k' r, readers w !! k' = Some r → k' ≠ k → col r ≠ v.

(** What the reader hook prints after the answer to its request. *)
Definition backend_log (obj : ReaderProfile.t) (outcome : exn + Z) : list Event :=
  match outcome with
  | inl e => [Print (backend_error_line e)]
  | inr status_code =>
      if bool_decide (status_code = 201)
      then [Print ("Reader " +:+ ReaderProfile.display_name obj
                   +:+ " synced with backend")]
      else []
  end.

(** What every model of the file satisfies: the table accessors read back
    what was written and leave clock and trace alone, a saved row carries
    its key, and stamping a stamped row again at the same time changes
    nothing. *)
Class ModelLaws (A : Type) `{Model A} : Prop := {
  table_set_table (m : gmap Z A) (w : World) : table (set_table m w) = m;
  table_emit (e : Event) (w : World) : table (A := A) (emit e w) = table w;
  trace_set_table (m : gmap Z A) (w : World) : trace (set_table m w) = trace w;
  clock_set_table (m : gmap Z A) (w : World) : clock (set_table m w) = clock w;
  get_pk_with_pk (k : Z) (x : A) : get_pk (Model_with_pk k x) = Some k;
  resave_row (k : Z) (add : bool) (now : Z) (x : A) :
    Model_with_pk k (Model_pre_save false now
                       (Model_with_pk k (Model_pre_save add now x)))
    = Model_with_pk k (Model_pre_save add now x);
}.

(** VirtualGiftAdmin defines no [save_model]; it inherits ModelAdmin's. *)
Module VirtualGiftAdmin.
Definition save_model (obj : VirtualGift.t) (change : bool) : M VirtualGift.t :=
  ModelAdmin_save_model obj change.
End VirtualGiftAdmin.

(** A series of gifts saved through the admin, one request each; a request
    that raised would end that request only. *)
Fixpoint save_gifts (gs : list VirtualGift.t) (env : Env) (w : World) : World :=
  match gs with
  | [] => w
  | g :: gs' => save_gifts gs' env (VirtualGiftAdmin.save_model g false env w).2
  end.

(** Several events recorded in order. *)
Definition emit_all (evs : list Event) (w : World) : World :=
  foldl (λ w e, emit e w) w evs.

(** The editable fields of a product, as the admin form shows them. *)
Definition form_of (p : Product.t) : ProductAdmin.Form.t :=
  {| ProductAdmin.Form.name := Product.name p;
     ProductAdmin.Form.description := Product.description p;
     ProductAdmin.Form.product_type := Product.product_type p;
     ProductAdmin.Form.price := Product.price p;
     ProductAdmin.Form.reader := Product.reader p;
     ProductAdmin.Form.inventory_count := Product.inventory_count p;
     ProductAdmin.Form.is_active := Product.is_active p;
     ProductAdmin.Form.images := Product.images p;
     ProductAdmin.Form.metadata := Product.metadata p |}.

(** The key of the row a request writes, if it writes one. *)
Definition request_key (req : Request) (w : World) : Z :=
  match req with
  | AddProduct _ => next_pk (products w)
  | ChangeProduct object_id _ => object_id
  end.

(** Stripe created a product (and returned its identifier). *)
Definition product_created (e : Event) : bool :=
  match e with
  | StripeProductCreate _ _ (inr _) => true
  | _ => false
  end.

(** A request to Stripe. *)
Definition is_stripe_call (e : Event) : bool :=
  match e with
  | StripeProductCreate _ _ _ | StripePriceCreate _ _ _ _ => true
  | _ => false
  end.

(** The characters that open or close markup or an attribute value. *)
Definition markup (c : ascii) : Prop :=
  c = "<"%char ∨ c = ">"%char ∨ c = "034"%char ∨ c = "'"%char.

(** * Properties *)

(** ** The status badge *)

Section status_badge.
Import ReaderProfile ReaderProfileAdmin.

Lemma colors_lookup (s : string) :
  default "gray" (colors !! s) = color_of_status s.
Proof.
  unfold color_of_status, colors.
  repeat case_decide; subst; try reflexivity.
  by rewrite !lookup_insert_ne, lookup_singleton_ne.
Qed.

Lemma escape_color (s : string) : escape (color_of_status s) = color_of_status s.
Proof. unfold color_of_status. by repeat case_decide. Qed.

(** C9.  The badge is a function of the status alone: a span whose
    background colour is green for "online", gray for "offline", orange for
    "busy" and gray for every other value, around the upper-cased status;
    it is computed without any statement of the monad, and never fails. *)
Theorem status_badge_color (obj : t) :
  status_badge obj
  = Some (badge_html (color_of_status (status obj))
                     (escape (upper (status obj)))).
Proof.
  unfold status_badge, format_html.
  rewrite colors_lookup. cbn [fmap list_fmap].
  rewrite escape_color.
  reflexivity.
Qed.
End status_badge.

(** ** Decimal arithmetic of the price *)

Section unit_amount.
Import Product ProductAdmin.

Lemma pow10_pos (n : Z) : 0 ≤ n → 0 < 10 ^ n.
Proof. intros. by apply Z.pow_pos_nonneg. Qed.

(** A coefficient within the context precision is left alone. *)
Lemma decimal_fix_small (d : decimal) :
  Z.abs (coeff d) < 10 ^ prec → decimal_fix d = d.
Proof.
  intros H. unfold decimal_fix.
  destruct (Z.ltb_spec (Z.abs (coeff d)) (10 ^ prec)); [done | lia].
Qed.

(** For a price the field accepts, [int(price * 100)] is the price in
    cents, exactly. *)
Lemma unit_amount_exact (obj : t) :
  DecimalField_valid 10 2 (price obj) →
  unit_amount obj = coeff (price obj) * 10 ^ (expo (price obj) + 2).
Proof.
  intros [Hexp Hdig]. unfold unit_amount, decimal_mul, decimal_of_int.
  destruct (price obj) as [c e]; cbn [coeff expo] in *.
  assert (Hc : Z.abs c < 10 ^ 10).
  { pose proof (pow10_pos (e + 2) ltac:(lia)). nia. }
  rewrite decimal_fix_small; cbn [coeff expo].
  2:{ assert (10 ^ 10 * 100 < 10 ^ prec) by (by vm_compute). lia. }
  unfold decimal_int; cbn [coeff expo]. rewrite Z.add_0_r.
  destruct (Z.leb_spec 0 e).
  - rewrite Z.pow_add_r by lia. change (10 ^ 2) with 100. lia.
  - assert (e = -1 ∨ e = -2) as [-> | ->] by lia.
    + change (10 ^ (- (-1))) with 10. change (10 ^ (-1 + 2)) with 10.
      replace (c * 100) with (c * 10 * 10) by lia.
      by rewrite Z.quot_mul.
    + change (10 ^ (- (-2))) with 100. change (10 ^ (-2 + 2)) with 1.
      rewrite Z.quot_mul by done. lia.
Qed.

Lemma Qpower_10_shift (e : Z) :
  (Qpower (inject_Z 10) (e + 2) == Qpower (inject_Z 10) e * inject_Z 100)%Q.
Proof.
  rewrite Qpower_plus by done. apply Qmult_comp; [reflexivity | done].
Qed.

(** ... hence a hundred times its value, ... *)
Lemma unit_amount_value (obj : t) :
  DecimalField_valid 10 2 (price obj) →
  (inject_Z (unit_amount obj) == decimal_value (price obj) * inject_Z 100)%Q.
Proof.
  intros Hv. rewrite (unit_amount_exact _ Hv). destruct Hv as [Hexp _].
  unfold decimal_value. rewrite inject_Z_mult, Zpower_Qpower by lia.
  rewrite Qpower_10_shift. ring.
Qed.

Lemma Qfloor_add_half (n : Z) : Qfloor (inject_Z n + (1 # 2)) = n.
Proof.
  pose proof (Qfloor_le (inject_Z n + (1 # 2))) as Hle.
  pose proof (Qlt_floor (inject_Z n + (1 # 2))) as Hlt.
  set (f := Qfloor _) in *.
  unfold Qle, Qlt in *. cbn in *. lia.
Qed.

(** ... and rounding that value to the nearest cent changes nothing. *)
Lemma unit_amount_rounded (obj : t) :
  DecimalField_valid 10 2 (price obj) →
  (inject_Z (unit_amount obj) == round_to_cents (price obj) * inject_Z 100)%Q.
Proof.
  intros Hv. unfold round_to_cents.
  rewrite <- (unit_amount_value _ Hv), Qfloor_add_half.
  field.
Qed.
End unit_amount.

(** ** The database *)

Section database.
Context {A : Type}.

Lemma unique_taken_spec (col : A → string) (k : Z) (row : A) (rows : gmap Z A) :
  unique_taken col k row rows = true
  ↔ ∃ k' r, rows !! k' = Some r ∧ k' ≠ k ∧ col r = col row.
Proof.
  unfold unique_taken. rewrite existsb_exists. split.
  - intros [[k' r] [Hin Hb]]. cbn in Hb.
    apply andb_true_iff in Hb as [H1%bool_decide_eq_true H2%bool_decide_eq_true].
    exists k', r. split; [|done].
    by apply elem_of_map_to_list, list_elem_of_In.
  - intros (k' & r & Hl & Hk & Hc). exists (k', r). split.
    + by apply list_elem_of_In, elem_of_map_to_list.
    + cbn. apply andb_true_iff. by rewrite !bool_decide_eq_true.
Qed.

Lemma next_pk_above (rows : gmap Z A) (k : Z) :
  is_Some (rows !! k) → k < next_pk rows.
Proof.
  unfold next_pk.
  induction rows as [|i x m Hi Hfold IH] using map_first_key_ind.
  - intros [? H]. by rewrite lookup_empty in H.
  - rewrite map_fold_insert_first_key by done.
    intros [y Hy]. destruct (decide (i = k)) as [-> | Hne].
    + lia.
    + rewrite lookup_insert_ne in Hy by done.
      specialize (IH (ex_intro _ y Hy)). lia.
Qed.

(** The key of a new row is not in use. *)
Lemma next_pk_fresh (rows : gmap Z A) : rows !! next_pk rows = None.
Proof.
  destruct (rows !! next_pk rows) eqn:E; [|done].
  pose proof (next_pk_above rows (next_pk rows) (ex_intro _ _ E)). lia.
Qed.
End database.

(** ** Saving a product *)

Section product_save.
Import Product.

(** The row [obj.save()] writes. *)
Lemma Product_save_cases (obj : t) (env : Env) (w : World) :
  let k := save_key obj w in
  let add := match products w !! k with None => true | Some _ => false end in
  let row := with_pk k (pre_save add (clock w) obj) in
  (identifier_free (stripe_product_id obj) k w ∧
   Model_save obj env w
   = (Return row,
      set_products (<[k := row]> (products w))
        (emit (if add then DbInsert "readers_product" k
               else DbUpdate "readers_product" k) w)))
  ∨
  (¬ identifier_free (stripe_product_id obj) k w ∧
   Model_save obj env w
   = (Raise (Exception "IntegrityError"
               "UNIQUE constraint failed: readers_product.stripe_product_id"),
      w)).
Proof.
  intros k add row. unfold Model_save.
  cbn [table set_table unique_columns get_pk Model_with_pk Model_pre_save
       db_table Product_Model List.find snd fst].
  fold (save_key obj w). fold k. fold add. fold row.
  destruct (unique_taken stripe_product_id k row (products w)) eqn:E.
  - right. split; [|done].
    apply unique_taken_spec in E as (k' & r & Hl & Hk & Hc).
    intros Hfree. exact (Hfree k' r Hl Hk Hc).
  - left. split; [|done].
    intros k' r Hl Hk Hc.
    assert (unique_taken stripe_product_id k row (products w) = true) as E'
      by (apply unique_taken_spec; eauto).
    congruence.
Qed.

Lemma Product_save_ok (obj : t) (env : Env) (w : World) :
  let k := save_key obj w in
  let add := match products w !! k with None => true | Some _ => false end in
  let row := with_pk k (pre_save add (clock w) obj) in
  identifier_free (stripe_product_id obj) k w →
  Model_save obj env w
  = (Return row,
     set_products (<[k := row]> (products w))
       (emit (if add then DbInsert "readers_product" k
              else DbUpdate "readers_product" k) w)).
Proof.
  intros k add row Hfree.
  destruct (Product_save_cases obj env w) as [[_ H] | [H _]]; [exact H | done].
Qed.

Lemma Product_save_clash (obj : t) (env : Env) (w : World) :
  ¬ identifier_free (stripe_product_id obj) (save_key obj w) w →
  Model_save obj env w
  = (Raise (Exception "IntegrityError"
              "UNIQUE constraint failed: readers_product.stripe_product_id"),
     w).
Proof.
  intros Hn.
  destruct (Product_save_cases obj env w) as [[H _] | [_ H]]; [done | exact H].
Qed.

(** Whatever it does, [save] returns an object with the identifier it was
    given, stores it under its key, and touches no other row. *)
Lemma Product_save_returns (obj row : t) (env : Env) (w w' : World) :
  Model_save obj env w = (Return row, w') →
  stripe_product_id row = stripe_product_id obj
  ∧ pk row = Some (save_key obj w)
  ∧ products w' = <[save_key obj w := row]> (products w)
  ∧ ∃ ev : Event, trace w' = trace w ++ [ev] ∧ is_external ev = false.
Proof.
  intros H.
  destruct (Product_save_cases obj env w) as [[_ E] | [_ E]];
    rewrite E in H; [|done].
  injection H as <- <-. repeat split; try done.
  destruct (products w !! save_key obj w); eexists; split; done.
Qed.

Lemma Product_save_raises (obj : t) (e : exn) (env : Env) (w w' : World) :
  Model_save obj env w = (Raise e, w') → w' = w.
Proof.
  intros H.
  destruct (Product_save_cases obj env w) as [[_ E] | [_ E]];
    rewrite E in H; [done|]. by injection H.
Qed.
End product_save.

(** ** The Stripe hook of ProductAdmin *)

Section stripe_hook.
Import Product ProductAdmin.
Implicit Types (obj : t) (env : Env) (w : World) (change : bool).

(** Reads a price event off a membership in an explicit list of events. *)
Ltac price_event H :=
  repeat (apply elem_of_cons in H as [H | H]; [by (try injection H as -> -> -> ->)|]);
  by apply elem_of_nil in H.

Lemma new_events_app {A} (m : M A) env w (evs : list Event) :
  trace (m env w).2 = trace w ++ evs → new_events m env w = evs.
Proof. unfold new_events. intros ->. apply drop_app_length. Qed.

(** [save_model] is: assign the key, run the [try] statement, save. *)
Lemma save_model_unfold obj change env w :
  save_model obj change env w
  = match try_except (save_model_try obj) (save_model_except obj)
            env (keyed env w) with
    | (Return o, w1) => ModelAdmin_save_model o change env w1
    | (Raise e, w1) => (Raise e, w1)
    end.
Proof. reflexivity. Qed.

(** With an identifier present the [try] suite does nothing. *)
Lemma try_with_identifier obj env w :
  stripe_product_id obj ≠ "" → save_model_try obj env w = (Return obj, w).
Proof.
  intros H. unfold save_model_try.
  destruct (stripe_product_id obj); [done | reflexivity].
Qed.

(** Without one it calls Stripe twice, stopping at the first exception. *)
Lemma try_without_identifier obj env w :
  stripe_product_id obj = "" →
  save_model_try obj env w
  = let created := StripeProductCreate (name obj) (description obj) in
    match stripe_Product_create env (stripe_api_key w) (trace w)
            (name obj) (description obj) with
    | inl e => (Raise e, emit (created (inl e)) w)
    | inr pid =>
        let w1 := emit (created (inr pid)) w in
        let priced := StripePriceCreate pid (unit_amount obj) "usd" in
        match stripe_Price_create env (stripe_api_key w1) (trace w1)
                pid (unit_amount obj) "usd" with
        | inl e => (Raise e, emit (priced (inl e)) w1)
        | inr price_id =>
            (Return (set_stripe_product_id pid obj),
             emit (priced (inr price_id)) w1)
        end
    end.
Proof.
  intros H. unfold save_model_try. rewrite H. cbn [truthy negb].
  unfold mbind, M_bind, stripe_Product_create_call, external.
  destruct (stripe_Product_create _ _ _ _ _) as [e | pid]; [reflexivity|].
  cbn zeta. unfold stripe_Price_create_call, external.
  destruct (stripe_Price_create _ _ _ _ _ _) as [e | price_id]; reflexivity.
Qed.

(** The suite raises exactly when one of the two calls to Stripe raises,
    and then with that exception. *)
Lemma try_raises_iff obj env w (e : exn) (w1 : World) :
  save_model_try obj env w = (Raise e, w1)
  ↔ stripe_product_id obj = ""
    ∧ ((stripe_Product_create env (stripe_api_key w) (trace w)
          (name obj) (description obj) = inl e
        ∧ w1 = emit (StripeProductCreate (name obj) (description obj) (inl e)) w)
       ∨ ∃ pid,
           let w' := emit (StripeProductCreate (name obj) (description obj)
                             (inr pid)) w in
           stripe_Product_create env (stripe_api_key w) (trace w)
             (name obj) (description obj) = inr pid
           ∧ stripe_Price_create env (stripe_api_key w') (trace w')
               pid (unit_amount obj) "usd" = inl e
           ∧ w1 = emit (StripePriceCreate pid (unit_amount obj) "usd" (inl e)) w').
Proof.
  destruct (decide (stripe_product_id obj = "")) as [Hid | Hid].
  2:{ rewrite (try_with_identifier _ _ _ Hid). by split; [|intros [? _]]. }
  rewrite (try_without_identifier _ _ _ Hid). cbn zeta.
  destruct (stripe_Product_create _ _ _ _ _) as [e1 | pid].
  { split.
    - intros [= -> <-]. split; [done|]. by left.
    - intros [_ [[[= ->] ->] | (pid & H & _)]]; done. }
  destruct (stripe_Price_create _ _ _ _ _ _) as [e2 | price_id] eqn:Hprice.
  - split.
    + intros [= -> <-]. split; [done|]. right. by exists pid.
    + intros [_ [[H _] | (pid' & [= <-] & H & ->)]]; [done|].
      rewrite Hprice in H. by injection H as ->.
  - split; [done|].
    intros [_ [[H _] | (pid' & [= <-] & H & _)]]; [done|].
    by rewrite Hprice in H.
Qed.

(** The [try] statement as a whole never raises, and touches neither the
    tables nor the clock. *)
Lemma try_statement_outcome obj env w :
  ∃ o w1 hook,
    try_except (save_model_try obj) (save_model_except obj) env w
    = (Return o, w1)
    ∧ hook_outcome env (stripe_api_key w) (trace w) obj o hook
    ∧ trace w1 = trace w ++ hook
    ∧ products w1 = products w ∧ clock w1 = clock w.
Proof.
  unfold try_except.
  destruct (decide (stripe_product_id obj = "")) as [Hid | Hid].
  - rewrite (try_without_identifier _ _ _ Hid). cbn zeta.
    destruct (stripe_Product_create _ _ _ _ _) as [e | pid] eqn:Hprod.
    { eexists _, _, _. split; [reflexivity|].
      split; [by apply (hook_product_failed _ _ _ _ e)|].
      cbn. by rewrite <- !app_assoc. }
    destruct (stripe_Price_create _ _ _ _ _ _) as [e | price_id] eqn:Hprice;
      eexists _, _, _; (split; [reflexivity|]).
    + split; [by apply (hook_price_failed _ _ _ _ pid e)|].
      cbn. by rewrite <- !app_assoc.
    + split; [by apply (hook_synced _ _ _ _ pid price_id)|].
      cbn. by rewrite <- !app_assoc.
  - rewrite (try_with_identifier _ _ _ Hid). eexists _, _, _.
    split; [reflexivity|]. split; [by apply hook_skipped|].
    by rewrite app_nil_r.
Qed.

Lemma hook_outcome_pk env key tr obj o hook :
  hook_outcome env key tr obj o hook → pk o = pk obj.
Proof. by intros []. Qed.

(** Every way [save_model] can go: the hook's outcome, then either the row
    is written or the database refuses it. *)
Lemma save_model_outcome obj change env w :
  ∃ o hook,
    hook_outcome env (configured_key env) (trace w) obj o hook
    ∧ ((∃ row w' db,
          save_model obj change env w = (Return row, w')
          ∧ trace w' = trace w ++ hook ++ [db] ∧ is_external db = false
          ∧ stripe_product_id row = stripe_product_id o
          ∧ pk row = Some (save_key obj w)
          ∧ products w' = <[save_key obj w := row]> (products w))
       ∨ (∃ e w',
          save_model obj change env w = (Raise e, w')
          ∧ trace w' = trace w ++ hook ∧ products w' = products w
          ∧ ¬ identifier_free (stripe_product_id o) (save_key obj w) w)).
Proof.
  rewrite save_model_unfold.
  destruct (try_statement_outcome obj env (keyed env w))
    as (o & w1 & hook & -> & Hout & Htr & Hprod & _).
  change (products (keyed env w)) with (products w) in Hprod.
  exists o, hook. split; [exact Hout|].
  unfold ModelAdmin_save_model.
  assert (Hkey : save_key o w1 = save_key obj w).
  { unfold save_key. by rewrite Hprod, (hook_outcome_pk _ _ _ _ _ _ Hout). }
  destruct (Model_save o env w1) as [[row | e] w'] eqn:E.
  - left. apply Product_save_returns in E as (Hrow & Hpk & Hp & ev & Hev & Hext).
    exists row, w', ev. rewrite Hkey in *.
    split; [done|]. split.
    { rewrite Hev, Htr. cbn. by rewrite <- app_assoc. }
    by rewrite Hp, Hprod.
  - right. exists e, w'.
    destruct (Product_save_cases o env w1) as [[_ E'] | [Hclash _]];
      [by rewrite E' in E|].
    apply Product_save_raises in E as ->.
    split; [done|]. split; [done|]. split; [done|].
    rewrite Hkey in Hclash. intros Hfree. apply Hclash.
    intros k' r Hl. apply Hfree. by rewrite <- Hprod.
Qed.

(** C1.  A product without identifier is synced before it is saved: when
    Stripe creates the product (from name and description) and then the
    price, [save_model] saves the record with the new product's identifier
    already in place, after the two calls; where no other row holds that
    identifier the save goes through, and the stored row has the
    identifier together with the submitted fields. *)
Theorem sync_before_persist obj change env w (pid price_id : string) :
  stripe_product_id obj = "" →
  let created := StripeProductCreate (name obj) (description obj) (inr pid) in
  let priced := StripePriceCreate pid (unit_amount obj) "usd" (inr price_id) in
  stripe_Product_create env (configured_key env) (trace w)
    (name obj) (description obj) = inr pid →
  stripe_Price_create env (configured_key env) (trace w ++ [created])
    pid (unit_amount obj) "usd" = inr price_id →
  let synced := set_stripe_product_id pid obj in
  save_model obj change env w
  = ModelAdmin_save_model synced change env (emit priced (emit created (keyed env w)))
  ∧ (identifier_free pid (save_key obj w) w →
     ∃ row w' saved,
       save_model obj change env w = (Return row, w')
       ∧ row = with_pk (save_key obj w)
                 (pre_save (bool_decide (products w !! save_key obj w = None))
                    (clock w) synced)
       ∧ stripe_product_id row = pid
       ∧ products w' !! save_key obj w = Some row
       ∧ new_events (save_model obj change) env w = [created; priced; saved]
       ∧ is_external saved = false).
Proof.
  intros Hid created priced Hprod Hprice synced.
  assert (Hsave : save_model obj change env w
    = ModelAdmin_save_model synced change env
        (emit priced (emit created (keyed env w)))).
  { rewrite save_model_unfold. unfold try_except.
    rewrite (try_without_identifier _ _ _ Hid). cbn zeta.
    change (stripe_api_key (keyed env w)) with (configured_key env).
    change (trace (keyed env w)) with (trace w).
    rewrite Hprod.
    change (stripe_api_key (emit _ (keyed env w))) with (configured_key env).
    change (trace (emit ?e (keyed env w))) with (trace w ++ [e]).
    fold created. rewrite Hprice. reflexivity. }
  split; [exact Hsave|].
  intros Hfree.
  set (w2 := emit priced (emit created (keyed env w))) in *.
  pose proof (Product_save_ok synced env w2) as Hok. cbn zeta in Hok.
  change (save_key synced w2) with (save_key obj w) in Hok.
  change (products w2) with (products w) in Hok.
  change (clock w2) with (clock w) in Hok.
  specialize (Hok Hfree). unfold ModelAdmin_save_model in Hsave.
  rewrite Hok in Hsave.
  eexists _, _, _. split; [exact Hsave|].
  split.
  { f_equal. f_equal. by destruct (products w !! save_key obj w). }
  split; [reflexivity|].
  split; [cbn; apply lookup_insert_eq|].
  split.
  - apply new_events_app. rewrite Hsave. cbn. by rewrite <- !app_assoc.
  - by destruct (products w !! save_key obj w).
Qed.

(** What holds of the hook when the [try] suite raises (the product call or
    the price call failed): the [try] statement completes normally with the
    record unchanged and the error line printed; [save_model] then is the
    ordinary save of the unchanged record, whose identifier is still
    empty; the hook leaves the tables alone.  The ordinary save stores the
    submitted fields only where no other row has an empty identifier. *)
Theorem stripe_failure_contained obj change env w (e : exn) (w1 : World) :
  save_model_try obj env (keyed env w) = (Raise e, w1) →
  let logged := emit (Print (stripe_error_line e)) w1 in
  try_except (save_model_try obj) (save_model_except obj) env (keyed env w)
  = (Return obj, logged)
  ∧ stripe_product_id obj = ""
  ∧ Print (stripe_error_line e) ∈ trace logged
  ∧ products logged = products w
  ∧ save_model obj change env w = ModelAdmin_save_model obj change env logged
  ∧ (identifier_free "" (save_key obj w) w →
     ∃ row w',
       save_model obj change env w = (Return row, w')
       ∧ row = with_pk (save_key obj w)
                 (pre_save (bool_decide (products w !! save_key obj w = None))
                    (clock w) obj)
       ∧ stripe_product_id row = ""
       ∧ products w' !! save_key obj w = Some row).
Proof.
  intros Htry logged.
  assert (Hid : stripe_product_id obj = "").
  { destruct (decide (stripe_product_id obj = "")) as [|Hne]; [done|].
    by rewrite (try_with_identifier _ _ _ Hne) in Htry. }
  assert (Hprod : products w1 = products w ∧ clock w1 = clock w).
  { rewrite (try_without_identifier _ _ _ Hid) in Htry. cbn zeta in Htry.
    destruct (stripe_Product_create _ _ _ _ _) as [e1 | pid].
    { by injection Htry as <- <-. }
    destruct (stripe_Price_create _ _ _ _ _ _) as [e2 | price_id]; [|done].
    by injection Htry as <- <-. }
  destruct Hprod as [Hprod Hclock].
  assert (Hstmt : try_except (save_model_try obj) (save_model_except obj) env
                    (keyed env w) = (Return obj, logged)).
  { unfold try_except. rewrite Htry. reflexivity. }
  assert (Hsave : save_model obj change env w
                  = ModelAdmin_save_model obj change env logged).
  { rewrite save_model_unfold, Hstmt. reflexivity. }
  split; [exact Hstmt|]. split; [exact Hid|].
  split; [cbn; set_solver|]. split; [exact Hprod|]. split; [exact Hsave|].
  intros Hfree.
  pose proof (Product_save_ok obj env logged) as Hok. cbn zeta in Hok.
  assert (Hkey : save_key obj logged = save_key obj w)
    by (unfold save_key; cbn; by rewrite Hprod).
  rewrite Hkey in Hok. change (products logged) with (products w1) in Hok.
  change (clock logged) with (clock w1) in Hok.
  rewrite Hprod, Hclock, Hid in Hok.
  unfold ModelAdmin_save_model in Hsave. rewrite Hok in Hsave.
  2:{ intros k' r Hl. apply Hfree. cbn in Hl. by rewrite <- Hprod. }
  eexists _, _. split; [exact Hsave|].
  split.
  { f_equal. f_equal. by destruct (products w !! save_key obj w). }
  split; [cbn; exact Hid|].
  cbn. apply lookup_insert_eq.
Qed.

(** What holds of the order of the assignment: for a record without
    identifier the [try] suite completes only through its last statement,
    after both calls have succeeded, and the identifier it assigns is the
    created product's.  When the product is created and the price call
    raises, the product stays behind at Stripe (its creation is in the
    trace with its identifier), the error line is printed, the record goes
    to the ordinary save unchanged, so a row that is written has an empty
    identifier; it is written only where no other row has an empty
    identifier. *)
Theorem identifier_after_both_calls obj change env w :
  stripe_product_id obj = "" →
  (∀ o w1,
     save_model_try obj env (keyed env w) = (Return o, w1) →
     ∃ pid price_id,
       o = set_stripe_product_id pid obj
       ∧ trace w1
         = trace w
           ++ [StripeProductCreate (name obj) (description obj) (inr pid);
               StripePriceCreate pid (unit_amount obj) "usd" (inr price_id)])
  ∧ (∀ (pid : string) (e : exn),
       let created := StripeProductCreate (name obj) (description obj) (inr pid) in
       let failed := StripePriceCreate pid (unit_amount obj) "usd" (inl e) in
       stripe_Product_create env (configured_key env) (trace w)
         (name obj) (description obj) = inr pid →
       stripe_Price_create env (configured_key env) (trace w ++ [created])
         pid (unit_amount obj) "usd" = inl e →
       let logged :=
         emit (Print (stripe_error_line e))
           (emit failed (emit created (keyed env w))) in
       save_model obj change env w
       = ModelAdmin_save_model obj change env logged
       ∧ trace logged
         = trace w ++ [created; failed; Print (stripe_error_line e)]
       ∧ products logged = products w
       ∧ (∀ row w',
            save_model obj change env w = (Return row, w') →
            stripe_product_id row = ""
            ∧ products w' !! save_key obj w = Some row)
       ∧ (identifier_free "" (save_key obj w) w →
          ∃ row w', save_model obj change env w = (Return row, w'))).
Proof.
  intros Hid. split.
  - intros o w1. rewrite (try_without_identifier _ _ _ Hid). cbn zeta.
    destruct (stripe_Product_create _ _ _ _ _) as [e | pid]; [done|].
    destruct (stripe_Price_create _ _ _ _ _ _) as [e | price_id]; [done|].
    intros [= <- <-]. exists pid, price_id. split; [done|].
    cbn. by rewrite <- !app_assoc.
  - intros pid e created failed Hprod Hprice logged.
    assert (Hsave : save_model obj change env w
                    = ModelAdmin_save_model obj change env logged).
    { rewrite save_model_unfold. unfold try_except.
      rewrite (try_without_identifier _ _ _ Hid). cbn zeta.
      change (stripe_api_key (keyed env w)) with (configured_key env).
      change (trace (keyed env w)) with (trace w).
      rewrite Hprod.
      change (stripe_api_key (emit _ (keyed env w))) with (configured_key env).
      change (trace (emit ?x (keyed env w))) with (trace w ++ [x]).
      fold created. rewrite Hprice. reflexivity. }
    split; [exact Hsave|].
    split; [cbn; by rewrite <- !app_assoc|].
    split; [reflexivity|].
    unfold ModelAdmin_save_model in Hsave. split.
    + intros row w' Hret. rewrite Hsave in Hret.
      apply Product_save_returns in Hret as (Hrow & _ & Hp & _).
      split; [by rewrite Hrow|].
      rewrite Hp. change (save_key obj logged) with (save_key obj w).
      apply lookup_insert_eq.
    + intros Hfree. rewrite Hsave.
      pose proof (Product_save_ok obj env logged) as Hok. cbn zeta in Hok.
      rewrite Hok; [by eexists _, _|].
      by rewrite Hid.
Qed.

(** C5.  Whenever saving a product whose price the field accepts
    ([max_digits=10], [decimal_places=2]) sends a price to Stripe, the
    currency is "usd" and the amount is [int(price * 100)], which is the
    price rounded to the nearest cent, times one hundred. *)
Theorem unit_amount_minor_units obj change env w
    (product : string) (amount : Z) (currency : string) (outcome : exn + string) :
  DecimalField_valid 10 2 (price obj) →
  StripePriceCreate product amount currency outcome
    ∈ new_events (save_model obj change) env w →
  currency = "usd"
  ∧ amount = unit_amount obj
  ∧ (inject_Z amount == round_to_cents (price obj) * inject_Z 100)%Q.
Proof.
  intros Hvalid Hin.
  assert (currency = "usd" ∧ amount = unit_amount obj) as [-> ->].
  { destruct (save_model_outcome obj change env w)
      as (o & hook & Hout & [(row & w' & db & Hs & Htr & Hdb & _)
                            | (e & w' & Hs & Htr & _)]);
      unfold new_events in Hin; rewrite Hs in Hin; cbn [snd] in Hin;
      rewrite Htr, drop_app_length in Hin.
    - apply elem_of_app in Hin as [Hin | Hin%list_elem_of_singleton].
      + destruct Hout; price_event Hin.
      + by subst db.
    - destruct Hout; price_event Hin. }
  split; [done|]. split; [done|].
  by apply unit_amount_rounded.
Qed.

Lemma save_model_with_identifier obj change env w :
  stripe_product_id obj ≠ "" →
  save_model obj change env w
  = ModelAdmin_save_model obj change env (keyed env w).
Proof.
  intros Hid. rewrite save_model_unfold. unfold try_except.
  by rewrite (try_with_identifier _ _ _ Hid).
Qed.

Lemma hook_outcome_with_identifier env key tr obj o hook :
  stripe_product_id obj ≠ "" →
  hook_outcome env key tr obj o hook → o = obj ∧ hook = [].
Proof. by intros Hid []. Qed.

(** The world a view leaves is the world its [save_model] leaves. *)
Lemma then_return_world {A} (m : M A) env w :
  ((m;; mret ()) env w).2 = (m env w).2.
Proof.
  unfold mbind, M_bind, mret, M_ret. by destruct (m env w) as [[a | e] w'].
Qed.

(** One edit of a product that has an identifier: no request goes out and
    the row keeps its key and its identifier. *)
Lemma change_view_with_identifier env w (k : Z) (r : t) (form : Form.t) :
  products w !! k = Some r →
  pk r = Some k →
  stripe_product_id r ≠ "" →
  let w' := (change_view k form env w).2 in
  (∃ r', products w' !! k = Some r' ∧ pk r' = Some k
         ∧ stripe_product_id r' = stripe_product_id r)
  ∧ ∃ evs, trace w' = trace w ++ evs ∧ filter is_external evs = [].
Proof.
  intros Hl Hpk Hid w'. subst w'. unfold change_view. rewrite Hl.
  rewrite then_return_world.
  set (obj := construct_instance form r).
  assert (Hkey : save_key obj w = k) by (unfold save_key; cbn; by rewrite Hpk).
  destruct (save_model_outcome obj true env w)
    as (o & hook & Hout & [(row & w' & db & -> & Htr & Hdb & Hrow & Hrpk & Hp)
                          | (e & w' & -> & Htr & Hp & _)]);
    apply hook_outcome_with_identifier in Hout as [-> ->]; try done;
    cbn [snd].
  - rewrite Hkey in *. split.
    + exists row. rewrite Hp, lookup_insert_eq. by rewrite Hrow.
    + exists [db]. split; [done|]. cbn. by rewrite Hdb.
  - split.
    + exists r. by rewrite Hp.
    + exists []. by rewrite Htr.
Qed.

Lemma serve_changes_with_identifier env (k : Z) (forms : list Form.t) :
  ∀ w (r : t),
    products w !! k = Some r →
    pk r = Some k →
    stripe_product_id r ≠ "" →
    let w' := serve (ChangeProduct k <$> forms) env w in
    (∃ r', products w' !! k = Some r'
           ∧ stripe_product_id r' = stripe_product_id r)
    ∧ ∃ evs, trace w' = trace w ++ evs ∧ filter is_external evs = [].
Proof.
  induction forms as [|form forms IH]; intros w r Hl Hpk Hid; cbn.
  - split; [by exists r|]. exists []. by rewrite app_nil_r.
  - destruct (change_view_with_identifier env w k r form Hl Hpk Hid)
      as ((r1 & Hl1 & Hpk1 & Hid1) & evs1 & Htr1 & Hf1).
    destruct (IH _ r1 Hl1 Hpk1 ltac:(by rewrite Hid1))
      as ((r2 & Hl2 & Hid2) & evs2 & Htr2 & Hf2).
    split.
    + exists r2. split; [done|]. by rewrite Hid2.
    + exists (evs1 ++ evs2). rewrite Htr2, Htr1, <- app_assoc.
      split; [done|]. by rewrite filter_app, Hf1, Hf2.
Qed.
End stripe_hook.

(** ** The identifier over the life of the table *)

Section identifier_lifetime.
Import Product ProductAdmin.

(** A save that does not overwrite the row under [k] with another
    identifier keeps that row's identifier, and keeps the keys consistent. *)
Lemma save_model_keeps_identifier obj change env w (k : Z) (r : t) :
  keys_consistent w →
  products w !! k = Some r →
  stripe_product_id r ≠ "" →
  (save_key obj w = k → stripe_product_id obj = stripe_product_id r) →
  let w' := (save_model obj change env w).2 in
  keys_consistent w'
  ∧ ∃ r', products w' !! k = Some r'
          ∧ stripe_product_id r' = stripe_product_id r.
Proof.
  intros Hkeys Hl Hid Hsame w'. subst w'.
  destruct (save_model_outcome obj change env w)
    as (o & hook & Hout & [(row & w' & db & -> & _ & _ & Hrow & Hrpk & Hp)
                          | (e & w' & -> & _ & Hp & _)]); cbn [snd].
  - split.
    + intros k0 r0. rewrite Hp.
      destruct (decide (save_key obj w = k0)) as [<- | Hne].
      * rewrite lookup_insert_eq. by intros [= <-].
      * rewrite lookup_insert_ne by done. apply Hkeys.
    + rewrite Hp. destruct (decide (save_key obj w = k)) as [Heq | Hne].
      * rewrite Heq, lookup_insert_eq. exists row. split; [done|].
        specialize (Hsame Heq).
        apply hook_outcome_with_identifier in Hout as [-> _];
          congruence.
      * rewrite lookup_insert_ne by done. by exists r.
  - split.
    + intros k0 r0. rewrite Hp. apply Hkeys.
    + exists r. by rewrite Hp.
Qed.

Lemma handle_keeps_identifier (req : Request) env w (k : Z) (r : t) :
  keys_consistent w →
  products w !! k = Some r →
  stripe_product_id r ≠ "" →
  let w' := (handle req env w).2 in
  keys_consistent w'
  ∧ ∃ r', products w' !! k = Some r'
          ∧ stripe_product_id r' = stripe_product_id r.
Proof.
  intros Hkeys Hl Hid. destruct req as [form | k' form]; cbn [handle].
  - unfold add_view. rewrite then_return_world.
    apply save_model_keeps_identifier; try done.
    unfold save_key. cbn. intros Hk.
    pose proof (next_pk_fresh (products w)) as Hfresh.
    rewrite Hk in Hfresh. congruence.
  - unfold change_view. destruct (products w !! k') as [r0|] eqn:Hl'.
    + rewrite then_return_world.
      apply save_model_keeps_identifier; try done.
      unfold save_key. cbn. rewrite (Hkeys _ _ Hl'). cbn.
      intros ->. congruence.
    + cbn. split; [done|]. by exists r.
Qed.

(** Once a stored product has an identifier, no series of requests to the
    admin site changes it. *)
Lemma identifier_immutable (requests : list Request) env :
  ∀ w (k : Z) (r : t),
    keys_consistent w →
    products w !! k = Some r →
    stripe_product_id r ≠ "" →
    ∃ r', products (serve requests env w) !! k = Some r'
          ∧ stripe_product_id r' = stripe_product_id r.
Proof.
  induction requests as [|req requests IH]; intros w k r Hkeys Hl Hid; cbn.
  - by exists r.
  - destruct (handle_keeps_identifier req env w k r Hkeys Hl Hid)
      as (Hkeys1 & r1 & Hl1 & Hid1).
    destruct (IH _ k r1 Hkeys1 Hl1 ltac:(by rewrite Hid1)) as (r2 & Hl2 & Hid2).
    exists r2. split; [done|]. by rewrite Hid2.
Qed.

(** The column is UNIQUE and NOT NULL, so the empty identifier can be
    stored once only: while one product without identifier is in the
    table, saving another one whose sync failed is refused. *)
Lemma second_empty_identifier_refused obj change env w
    (k : Z) (r : t) (e : exn) (w1 : World) :
  products w !! k = Some r →
  stripe_product_id r = "" →
  k ≠ save_key obj w →
  save_model_try obj env (keyed env w) = (Raise e, w1) →
  save_model obj change env w
  = (Raise (Exception "IntegrityError"
              "UNIQUE constraint failed: readers_product.stripe_product_id"),
     emit (Print (stripe_error_line e)) w1).
Proof.
  intros Hl Hr Hk Htry.
  assert (Hid : stripe_product_id obj = "").
  { destruct (decide (stripe_product_id obj = "")) as [|Hne]; [done|].
    by rewrite (try_with_identifier _ _ _ Hne) in Htry. }
  assert (Hprod : products w1 = products w).
  { rewrite (try_without_identifier _ _ _ Hid) in Htry. cbn zeta in Htry.
    destruct (stripe_Product_create _ _ _ _ _) as [e1 | pid].
    { by injection Htry as <- <-. }
    destruct (stripe_Price_create _ _ _ _ _ _) as [e2 | price_id]; [|done].
    by injection Htry as <- <-. }
  rewrite save_model_unfold. unfold try_except. rewrite Htry.
  unfold save_model_except, mbind, M_bind, print, mret, M_ret.
  unfold ModelAdmin_save_model. apply Product_save_clash.
  intros Hfree. apply (Hfree k r).
  - cbn. by rewrite Hprod.
  - unfold save_key in *. cbn. by rewrite Hprod.
  - by rewrite Hid.
Qed.

(** C7.  On the failing input: with no API key configured every call to
    Stripe raises.  The first product is saved without identifier; saving
    a second product then ends in an IntegrityError, and the table still
    holds the first product only. *)
Theorem second_unsynced_product_rejected :
  let w1 := (save_model candle false env_down empty_world).2 in
  let second := save_model incense false env_down w1 in
  (save_model candle false env_down empty_world).1
  = Return (with_pk 1 (pre_save true 1000 candle))
  ∧ products w1 = {[ 1 := with_pk 1 (pre_save true 1000 candle) ]}
  ∧ second.1
    = Raise (Exception "IntegrityError"
               "UNIQUE constraint failed: readers_product.stripe_product_id")
  ∧ products second.2 = products w1.
Proof. by vm_compute. Qed.
End identifier_lifetime.

(** ** A failed sync and the next product *)

Section failed_sync.
Import Product ProductAdmin.

(** C3.  On the failing input: the table holds one product without
    identifier, as an earlier save with a failed sync leaves it, and no API
    key is configured, so every call to Stripe raises.  A new product is
    saved: [Product.create] raises, the error line is printed and the
    identifier stays empty; then the save itself is refused, the
    IntegrityError leaves [save_model], no row is written and the table is
    as before. *)
Theorem failed_sync_not_persisted :
  let e := Exception "AuthenticationError" "No API key provided." in
  let res := save_model incense false env_down backlog_world in
  (∃ w1, save_model_try incense env_down (keyed env_down backlog_world)
         = (Raise e, w1))
  ∧ new_events (save_model incense false) env_down backlog_world
    = [StripeProductCreate "Incense" "Sandalwood sticks" (inl e);
       Print "Error syncing with Stripe: No API key provided."]
  ∧ res.1
    = Raise (Exception "IntegrityError"
               "UNIQUE constraint failed: readers_product.stripe_product_id")
  ∧ products res.2 = products backlog_world.
Proof.
  cbv zeta. split; [eexists; reflexivity|]. by vm_compute.
Qed.

(** C10.  On the failing input: the table holds one product without
    identifier, Stripe creates products and fails on their prices.  A new
    product is saved: the product is created at Stripe, the price call
    raises, the error line is printed and the identifier stays empty; then
    the save is refused with an IntegrityError, so it does not complete: no
    row is written and the table is as before. *)
Theorem price_failure_save_refused :
  let e := Exception "APIConnectionError" "Connection reset." in
  let res := save_model incense false env_flaky backlog_world in
  stripe_product_id incense = ""
  ∧ new_events (save_model incense false) env_flaky backlog_world
    = [StripeProductCreate "Incense" "Sandalwood sticks" (inr "prod_1");
       StripePriceCreate "prod_1" 450 "usd" (inl e);
       Print "Error syncing with Stripe: Connection reset."]
  ∧ res.1
    = Raise (Exception "IntegrityError"
               "UNIQUE constraint failed: readers_product.stripe_product_id")
  ∧ products res.2 = products backlog_world.
Proof. by vm_compute. Qed.
End failed_sync.

(** ** At most one completed sync *)

Section at_most_once.
Import Product ProductAdmin.

Lemma sync_completed_external (ev : Event) :
  is_external ev = false → sync_completed ev = false.
Proof. by destruct ev. Qed.

Lemma no_request_no_sync (evs : list Event) :
  filter is_external evs = [] → filter sync_completed evs = [].
Proof.
  induction evs as [|ev evs IH]; [done|].
  rewrite !filter_cons. destruct (is_external ev) eqn:E; [done|].
  rewrite (sync_completed_external _ E). exact IH.
Qed.

(** One edit of the product under [k]: either nothing was completed and the
    identifier is as before, or one sync was completed and the row now has
    an identifier.  The other rows are as before. *)
Lemma change_view_sync_step env w (k : Z) (r : t) (form : Form.t) :
  products w !! k = Some r →
  pk r = Some k →
  stripe_ids_fresh env k w →
  let w' := (change_view k form env w).2 in
  ∃ r' evs,
    products w' !! k = Some r' ∧ pk r' = Some k
    ∧ trace w' = trace w ++ evs
    ∧ (∀ k', k' ≠ k → products w' !! k' = products w !! k')
    ∧ ((stripe_product_id r' = stripe_product_id r
        ∧ filter sync_completed evs = [])
       ∨ (stripe_product_id r' ≠ ""
          ∧ length (filter sync_completed evs) = 1%nat)).
Proof.
  intros Hl Hpk Hfresh w'. subst w'. unfold change_view. rewrite Hl.
  rewrite then_return_world.
  set (obj := construct_instance form r).
  assert (Hkey : save_key obj w = k) by (unfold save_key; cbn; by rewrite Hpk).
  destruct (save_model_outcome obj true env w)
    as (o & hook & Hout & [(row & w' & db & -> & Htr & Hdb & Hrow & Hrpk & Hp)
                          | (e & w' & -> & Htr & Hp & Hclash)]);
    cbn [snd]; rewrite Hkey in *.
  - exists row, (hook ++ [db]). rewrite Hp, lookup_insert_eq.
    split; [done|]. split; [done|]. split; [done|].
    split; [intros k' Hne; by rewrite lookup_insert_ne|].
    rewrite filter_app, filter_cons, (sync_completed_external _ Hdb), filter_nil,
      app_nil_r.
    destruct Hout as [ | | | pid price_id Hid Hprod Hprice]; try (by left).
    right. split; [|done].
    rewrite Hrow. cbn. by apply (Hfresh _ _ _ _ _ Hprod).
  - exists r, hook. rewrite Hp. split; [done|]. split; [done|]. split; [done|].
    split; [done|]. left. split; [done|].
    destruct Hout as [ | | | pid price_id Hid Hprod Hprice]; try done.
    exfalso. apply Hclash. cbn. by apply (Hfresh _ _ _ _ _ Hprod).
Qed.

(** Every request adds to the trace. *)
Lemma serve_trace (requests : list Request) env :
  ∀ w, ∃ evs, trace (serve requests env w) = trace w ++ evs.
Proof.
  induction requests as [|req requests IH]; intros w; cbn.
  - exists []. by rewrite app_nil_r.
  - destruct (IH (handle req env w).2) as [evs2 ->].
    assert (∃ evs1, trace (handle req env w).2 = trace w ++ evs1) as [evs1 ->].
    { destruct req as [form | k form]; cbn [handle].
      - unfold add_view. rewrite then_return_world.
        destruct (save_model_outcome (construct_instance form new) false env w)
          as (o & hook & _ & [(row & w' & db & -> & Htr & _)
                             | (e & w' & -> & Htr & _)]); eauto.
      - unfold change_view. destruct (products w !! k) as [r|].
        + rewrite then_return_world.
          destruct (save_model_outcome (construct_instance form r) true env w)
            as (o & hook & _ & [(row & w' & db & -> & Htr & _)
                               | (e & w' & -> & Htr & _)]); eauto.
        + exists []. by rewrite app_nil_r. }
    exists (evs1 ++ evs2). by rewrite app_assoc.
Qed.

(** Over any series of edits of one product, Stripe completes at most one
    sync for it, provided Stripe hands out proper identifiers. *)
Lemma synced_at_most_once env (k : Z) (forms : list Form.t) :
  ∀ w (r : t),
    products w !! k = Some r →
    pk r = Some k →
    stripe_ids_fresh env k w →
    (length (filter sync_completed
               (drop (length (trace w))
                  (trace (serve (ChangeProduct k <$> forms) env w)))) ≤ 1)%nat.
Proof.
  induction forms as [|form forms IH]; intros w r Hl Hpk Hfresh.
  - cbn. rewrite drop_all. cbn. lia.
  - cbn [fmap list_fmap serve handle].
    destruct (change_view_sync_step env w k r form Hl Hpk Hfresh)
      as (r1 & evs1 & Hl1 & Hpk1 & Htr1 & Hother & Hcase).
    set (w1 := (change_view k form env w).2) in *.
    assert (Hfresh1 : stripe_ids_fresh env k w1).
    { intros key tr n d pid Hprod.
      destruct (Hfresh key tr n d pid Hprod) as [Hne Hfree].
      split; [done|]. intros k' r' Hl' Hk'. rewrite Hother in Hl' by done.
      by apply (Hfree k' r'). }
    destruct (serve_trace (ChangeProduct k <$> forms) env w1) as [evs2 Htr2].
    rewrite Htr2, Htr1, <- app_assoc, drop_app_length, filter_app, length_app.
    destruct Hcase as [[_ Hnone] | [Hid1 Hone]].
    + rewrite Hnone. cbn.
      specialize (IH w1 r1 Hl1 Hpk1 Hfresh1).
      by rewrite Htr2, drop_app_length in IH.
    + rewrite Hone.
      destruct (serve_changes_with_identifier env k forms w1 r1 Hl1 Hpk1 Hid1)
        as (_ & evs2' & Htr2' & Hf).
      rewrite Htr2 in Htr2'. apply app_inv_head in Htr2' as <-.
      rewrite (no_request_no_sync _ Hf). cbn. lia.
Qed.
(** C4.  A record that carries an identifier is saved without any call to
    Stripe and keeps its identifier: [save_model] is the ordinary save, no
    request is among its events, and the saved row has the same
    identifier.  Hence, once a stored product has an identifier, no series
    of edits through the change view ever calls Stripe for it again or
    alters the identifier; and over any series of edits of a stored product
    at most one sync is completed, Stripe handing out identifiers that are
    not empty and not in use. *)
Theorem no_second_sync obj change env w :
  stripe_product_id obj ≠ "" →
  save_model obj change env w
  = ModelAdmin_save_model obj change env (keyed env w)
  ∧ filter is_external (new_events (save_model obj change) env w) = []
  ∧ (∀ row w',
       save_model obj change env w = (Return row, w') →
       stripe_product_id row = stripe_product_id obj)
  ∧ (∀ (k : Z) (forms : list Form.t),
       products w !! k = Some obj →
       pk obj = Some k →
       let w' := serve (ChangeProduct k <$> forms) env w in
       filter is_external (drop (length (trace w)) (trace w')) = []
       ∧ ∃ r, products w' !! k = Some r
              ∧ stripe_product_id r = stripe_product_id obj)
  ∧ (∀ (k : Z) (r : t) (forms : list Form.t),
       products w !! k = Some r →
       pk r = Some k →
       stripe_ids_fresh env k w →
       let w' := serve (ChangeProduct k <$> forms) env w in
       (length (filter sync_completed (drop (length (trace w)) (trace w')))
        ≤ 1)%nat).
Proof.
  intros Hid.
  pose proof (save_model_with_identifier obj change env w Hid) as Hsave.
  split; [exact Hsave|].
  destruct (save_model_outcome obj change env w)
    as (o & hook & Hout & Hcases).
  apply hook_outcome_with_identifier in Hout as [-> ->]; [|done].
  split; [|split; [|split]].
  - unfold new_events.
    destruct Hcases as [(row & w' & db & -> & Htr & Hdb & _)
                       | (e & w' & -> & Htr & _)];
      cbn [snd]; rewrite Htr, drop_app_length; [|done].
    cbn. by rewrite Hdb.
  - intros row w' Hret.
    destruct Hcases as [(row1 & w1 & db & Hs & _ & _ & Hrow & _)
                       | (e & w1 & Hs & _)]; rewrite Hs in Hret; [|done].
    by injection Hret as <- <-.
  - intros k forms Hl Hpk w'.
    destruct (serve_changes_with_identifier env k forms w obj Hl Hpk Hid)
      as (Hrow & evs & Htr & Hf).
    split; [|exact Hrow].
    subst w'. by rewrite Htr, drop_app_length.
  - intros k r forms Hl Hpk Hfresh. by apply (synced_at_most_once env k forms w r).
Qed.
End at_most_once.

(** ** The backend hook of ReaderProfileAdmin *)

Section backend_hook.
Import ReaderProfile ReaderProfileAdmin.
Implicit Types (obj row : t) (env : Env) (w : World) (change : bool).

(** What a successful [save] of a reader profile does. *)
Lemma Reader_save_returns obj row env w w1 :
  Model_save obj env w = (Return row, w1) →
  ∃ (k : Z) (add : bool),
    row = with_pk k (pre_save add (clock w) obj)
    ∧ readers w1 = <[k := row]> (readers w)
    ∧ products w1 = products w ∧ gifts w1 = gifts w
    ∧ trace w1
      = trace w ++ [if add then DbInsert "readers_readerprofile" k
                    else DbUpdate "readers_readerprofile" k].
Proof.
  unfold Model_save.
  cbn [table set_table unique_columns get_pk Model_with_pk Model_pre_save
       db_table ReaderProfile_Model List.find snd fst].
  set (k := default _ _). set (add := match _ with None => true | _ => false end).
  destruct (unique_taken clerk_id _ _ _); [done|].
  destruct (unique_taken email _ _ _); [done|].
  intros [= <- <-]. by exists k, add.
Qed.

Lemma Reader_save_raises obj (e : exn) env w w1 :
  Model_save obj env w = (Raise e, w1) → w1 = w.
Proof.
  unfold Model_save.
  cbn [table set_table unique_columns get_pk Model_with_pk Model_pre_save
       db_table ReaderProfile_Model List.find snd fst].
  destruct (unique_taken clerk_id _ _ _); [by intros [= _ <-]|].
  destruct (unique_taken email _ _ _); [by intros [= _ <-]|].
  done.
Qed.

(** The request carries the fields of the record as submitted. *)
Lemma request_body_saved obj (k : Z) (add : bool) (now : Z) :
  request_body (with_pk k (pre_save add now obj)) = request_body obj.
Proof. reflexivity. Qed.

(** The [try] statement for a new profile: one request, then at most one
    printed line; it completes normally whatever the backend does. *)
Lemma try_statement_new obj env w :
  let url := readers_url env in
  let outcome := requests_post env (trace w) url (request_body obj) in
  let posted := emit (RequestsPost url (request_body obj) outcome) w in
  try_except
    (save_model_try obj false
       (default "http://localhost:5000" (environ env !! "BACKEND_API_URL")))
    save_model_except env w
  = (Return (),
     match outcome with
     | inl e => emit (Print (backend_error_line e)) posted
     | inr status_code =>
         if bool_decide (status_code = 201)
         then emit (Print ("Reader " +:+ display_name obj +:+ " synced with backend"))
                posted
         else posted
     end).
Proof.
  cbv zeta.
  unfold readers_url, try_except, save_model_try. cbn [negb].
  unfold mbind, M_bind, requests_post_call, external. cbn zeta.
  destruct (requests_post env (trace w) _ _) as [e | status_code];
    [reflexivity|].
  by destruct (bool_decide (status_code = 201)).
Qed.

(** [save_model], statement by statement. *)
Lemma Reader_save_model_unfold obj change env w :
  save_model obj change env w
  = match ModelAdmin_save_model obj change env w with
    | (Raise e, w1) => (Raise e, w1)
    | (Return row, w1) =>
        match try_except
                (save_model_try row change
                   (default "http://localhost:5000"
                      (environ env !! "BACKEND_API_URL")))
                save_model_except env w1 with
        | (Return _, w2) => (Return row, w2)
        | (Raise e, w2) => (Raise e, w2)
        end
    end.
Proof.
  unfold save_model, mbind, M_bind, os_getenv_default, mret, M_ret.
  by destruct (ModelAdmin_save_model obj change env w) as [[row | e] w1].
Qed.

(** C2.  The request to the backend goes out exactly when a new profile
    has just been saved ([change] is false and the save did not raise): it
    is the first event after the database write, it is the only request,
    it is a POST to the readers endpoint, and its body holds the clerk id,
    email, display name, bio, specialties and the three rates as floats.
    An edit ([change] is true) saves and sends nothing; a refused save
    sends nothing either. *)
Theorem reader_provisioned_once obj change env w :
  let url := readers_url env in
  let body :=
    JDict [("clerk_id", JStr (clerk_id obj));
           ("email", JStr (email obj));
           ("display_name", JStr (display_name obj));
           ("bio", JStr (bio obj));
           ("specialties", specialties obj);
           ("chat_rate", JFloat (chat_rate obj));
           ("call_rate", JFloat (call_rate obj));
           ("video_rate", JFloat (video_rate obj))] in
  match ModelAdmin_save_model obj change env w with
  | (Raise e, w1) => save_model obj change env w = (Raise e, w1) ∧ w1 = w
  | (Return row, w1) =>
      (∃ db : Event, trace w1 = trace w ++ [db] ∧ is_external db = false)
      ∧ if change
        then save_model obj change env w = (Return row, w1)
        else ∃ w2 log,
               save_model obj change env w = (Return row, w2)
               ∧ trace w2
                 = trace w1
                   ++ RequestsPost url body
                        (requests_post env (trace w1) url body) :: log
               ∧ filter is_external log = []
  end.
Proof.
  intros url body. rewrite Reader_save_model_unfold.
  unfold ModelAdmin_save_model.
  destruct (Model_save obj env w) as [[row | e] w1] eqn:Hsave.
  2:{ split; [done|]. by apply Reader_save_raises in Hsave. }
  apply Reader_save_returns in Hsave
    as (k & add & -> & _ & _ & _ & Htr).
  split.
  { eexists. split; [exact Htr|]. by destruct add. }
  destruct change.
  - reflexivity.
  - rewrite try_statement_new, request_body_saved. cbn zeta.
    change (request_body obj) with body. fold url.
    destruct (requests_post env (trace w1) url body) as [e | status_code].
    + eexists _, [_]. split; [reflexivity|]. cbn. by rewrite <- app_assoc.
    + destruct (bool_decide (status_code = 201)).
      * eexists _, [_]. split; [reflexivity|]. cbn. by rewrite <- app_assoc.
      * eexists _, []. split; [reflexivity|]. by cbn.
Qed.

(** C6.  Once the profile is saved, [save_model] returns normally whatever
    the backend does (an exception, a status other than 201, or 201), and it
    leaves the three tables exactly as the save left them, with the profile
    stored; and when the request raises, the error line with the
    exception's text is printed. *)
Theorem provisioning_failure_contained obj change env w row w1 :
  ModelAdmin_save_model obj change env w = (Return row, w1) →
  ∃ w2,
    save_model obj change env w = (Return row, w2)
    ∧ readers w2 = readers w1 ∧ products w2 = products w1
    ∧ gifts w2 = gifts w1
    ∧ (∃ k : Z, pk row = Some k ∧ readers w2 !! k = Some row)
    ∧ (∀ e : exn,
         change = false →
         requests_post env (trace w1) (readers_url env) (request_body obj)
         = inl e →
         Print (backend_error_line e) ∈ trace w2).
Proof.
  intros Hsave. rewrite Reader_save_model_unfold, Hsave.
  unfold ModelAdmin_save_model in Hsave.
  apply Reader_save_returns in Hsave
    as (k & add & Hrow & Hreaders & _ & _ & _).
  assert (Hstored : ∀ w2, readers w2 = readers w1 →
            ∃ k0 : Z, pk row = Some k0 ∧ readers w2 !! k0 = Some row).
  { intros w2 ->. exists k. split; [by rewrite Hrow|].
    rewrite Hreaders. apply lookup_insert_eq. }
  destruct change.
  - exists w1. split; [reflexivity|]. repeat split; auto. done.
  - rewrite try_statement_new. cbn zeta.
    rewrite Hrow, request_body_saved. rewrite <- Hrow.
    destruct (requests_post env (trace w1) _ _) as [e | status_code] eqn:E.
    + eexists. split; [reflexivity|]. repeat split; auto.
      intros e' _ [= <-]. cbn. set_solver.
    + destruct (bool_decide (status_code = 201));
        (eexists; split; [reflexivity|]); repeat split; auto; done.
Qed.

(** C6.  A status other than 201 is not logged: the backend answers the
    provisioning request for a new profile with 500, and the only events are
    the database write and the request. *)
Lemma failure_status_not_logged :
  let events := new_events (save_model ann false) env_down empty_world in
  events
  = [DbInsert "readers_readerprofile" 1;
     RequestsPost "http://localhost:5000/api/admin/readers"
       (request_body ann) (inr 500)]
  ∧ ¬ ∃ line, Print line ∈ events.
Proof.
  assert (E : new_events (save_model ann false) env_down empty_world
    = [DbInsert "readers_readerprofile" 1;
       RequestsPost "http://localhost:5000/api/admin/readers"
         (request_body ann) (inr 500)]) by (by vm_compute).
  cbv zeta. rewrite E. split; [done|].
  intros [line Hin].
  repeat (apply elem_of_cons in Hin as [Hin | Hin]; [done|]).
  by apply elem_of_nil in Hin.
Qed.
End backend_hook.

(** ** Listings *)

Section listings.
#[local] Instance ReaderProfile_ordering_total : Total ReaderProfile.ordering.
Proof. intros a b. unfold ReaderProfile.ordering. lia. Qed.

#[local] Instance ReaderProfile_ordering_trans : Transitive ReaderProfile.ordering.
Proof. intros a b c. unfold ReaderProfile.ordering. lia. Qed.

#[local] Instance Product_ordering_total : Total Product.ordering.
Proof. intros a b. unfold Product.ordering. lia. Qed.

#[local] Instance Product_ordering_trans : Transitive Product.ordering.
Proof. intros a b c. unfold Product.ordering. lia. Qed.

#[local] Instance VirtualGift_ordering_total : Total VirtualGift.ordering.
Proof.
  intros a b. unfold VirtualGift.ordering, decimal_le.
  destruct (Qlt_le_dec (decimal_value (VirtualGift.price b))
              (decimal_value (VirtualGift.price a))) as [H | H].
  - right. by apply Qlt_le_weak.
  - by left.
Qed.

#[local] Instance VirtualGift_ordering_trans : Transitive VirtualGift.ordering.
Proof.
  intros a b c. unfold VirtualGift.ordering, decimal_le. apply Qle_trans.
Qed.

(** C8.  Every listing holds the rows of its table, each once; in the
    listings of reader profiles and of products no row is older than a row
    after it (newest first, by [created_at]); in the listing of virtual
    gifts no row costs more than a row after it (cheapest first). *)
Theorem listings_ordered (w : World) :
  (StronglySorted
     (λ a b, ReaderProfile.created_at b ≤ ReaderProfile.created_at a)
     (objects_all (A := ReaderProfile.t) w)
   ∧ objects_all (A := ReaderProfile.t) w ≡ₚ (map_to_list (readers w)).*2)
  ∧ (StronglySorted
       (λ a b, Product.created_at b ≤ Product.created_at a)
       (objects_all (A := Product.t) w)
     ∧ objects_all (A := Product.t) w ≡ₚ (map_to_list (products w)).*2)
  ∧ (StronglySorted
       (λ a b, (decimal_value (VirtualGift.price a)
                <= decimal_value (VirtualGift.price b))%Q)
       (objects_all (A := VirtualGift.t) w)
     ∧ objects_all (A := VirtualGift.t) w ≡ₚ (map_to_list (gifts w)).*2).
Proof.
  repeat split.
  - apply (StronglySorted_merge_sort ReaderProfile.ordering).
  - apply (merge_sort_Permutation ReaderProfile.ordering).
  - apply (StronglySorted_merge_sort Product.ordering).
  - apply (merge_sort_Permutation Product.ordering).
  - apply (StronglySorted_merge_sort VirtualGift.ordering).
  - apply (merge_sort_Permutation VirtualGift.ordering).
Qed.
End listings.

(** ** The theorems on the sample data *)

Section samples.
Import Product ProductAdmin.

Example status_badge_ann :
  ReaderProfileAdmin.status_badge ann = Some (badge_html "gray" "OFFLINE").
Proof. reflexivity. Qed.

Example colors_get :
  default "gray" (ReaderProfileAdmin.colors !! "online") = "green"
  ∧ default "gray" (ReaderProfileAdmin.colors !! "offline") = "gray"
  ∧ default "gray" (ReaderProfileAdmin.colors !! "busy") = "orange"
  ∧ default "gray" (ReaderProfileAdmin.colors !! "unknown-value") = "gray".
Proof. by vm_compute. Qed.

Example unit_amount_9_99 : unit_amount candle = 999.
Proof. reflexivity. Qed.

(** [int()] cuts off what is left of a cent; the field never lets such a
    price through. *)
Example unit_amount_truncates :
  decimal_int (decimal_mul (Decimal 9999 (-3)) (decimal_of_int 100)) = 999
  ∧ ¬ DecimalField_valid 10 2 (Decimal 9999 (-3)).
Proof. split; [reflexivity|]. intros [H _]. by vm_compute in H. Qed.

(** Three edits of a stored candle that was never synced, with Stripe up:
    the first edit syncs it, the others send nothing. *)
Example three_edits_one_sync :
  filter is_external
    (trace (serve (ChangeProduct 1 <$> [candle_form; candle_form; candle_form])
              env_up backlog_world))
  = [StripeProductCreate "Candle (large)" "A large white candle" (inr "prod_1");
     StripePriceCreate "prod_1" 1299 "usd" (inr "price_1")].
Proof. by vm_compute. Qed.

(** A new profile with the backend up: the row is written, one request
    goes out, the success line is printed. *)
Example new_reader_provisioned :
  new_events (ReaderProfileAdmin.save_model ann false) env_up empty_world
  = [DbInsert "readers_readerprofile" 1;
     RequestsPost "http://localhost:5000/api/admin/readers"
       (ReaderProfileAdmin.request_body ann) (inr 201);
     Print "Reader Ann synced with backend"].
Proof. by vm_compute. Qed.

(** The same profile saved as an edit: the row is written, nothing is sent. *)
Example reader_edit_sends_nothing :
  new_events (ReaderProfileAdmin.save_model ann true) env_up empty_world
  = [DbInsert "readers_readerprofile" 1].
Proof. by vm_compute. Qed.

(** C1 on a new candle with both services up. *)
Lemma sync_before_persist_witness :
  stripe_product_id candle = ""
  ∧ stripe_Product_create env_up (configured_key env_up) (trace empty_world)
      (name candle) (description candle) = inr "prod_1"
  ∧ stripe_Price_create env_up (configured_key env_up)
      (trace empty_world
       ++ [StripeProductCreate (name candle) (description candle) (inr "prod_1")])
      "prod_1" (unit_amount candle) "usd" = inr "price_1"
  ∧ save_model candle false env_up empty_world
    = ModelAdmin_save_model (set_stripe_product_id "prod_1" candle) false env_up
        (emit (StripePriceCreate "prod_1" 999 "usd" (inr "price_1"))
           (emit (StripeProductCreate "Candle" "A white candle" (inr "prod_1"))
              (keyed env_up empty_world))).
Proof.
  split; [reflexivity|]. split; [reflexivity|]. split; [reflexivity|].
  apply (sync_before_persist candle false env_up empty_world "prod_1" "price_1");
    reflexivity.
Defined.

(** A new candle with Stripe refusing every call, the table being empty. *)
Lemma stripe_failure_contained_witness :
  let e := Exception "AuthenticationError" "No API key provided." in
  let w1 := emit (StripeProductCreate "Candle" "A white candle" (inl e))
              (keyed env_down empty_world) in
  save_model_try candle env_down (keyed env_down empty_world) = (Raise e, w1)
  ∧ save_model candle false env_down empty_world
    = ModelAdmin_save_model candle false env_down
        (emit (Print (stripe_error_line e)) w1).
Proof.
  split; [reflexivity|].
  apply (stripe_failure_contained candle false env_down empty_world
           (Exception "AuthenticationError" "No API key provided.")).
  reflexivity.
Defined.

(** A new candle whose price Stripe fails to create, the table being empty. *)
Lemma identifier_after_both_calls_witness :
  let e := Exception "APIConnectionError" "Connection reset." in
  stripe_product_id candle = ""
  ∧ save_model candle false env_flaky empty_world
    = ModelAdmin_save_model candle false env_flaky
        (emit (Print (stripe_error_line e))
           (emit (StripePriceCreate "prod_1" 999 "usd" (inl e))
              (emit (StripeProductCreate "Candle" "A white candle" (inr "prod_1"))
                 (keyed env_flaky empty_world)))).
Proof.
  split; [reflexivity|].
  apply (proj2 (identifier_after_both_calls candle false env_flaky empty_world
                  eq_refl) "prod_1"
           (Exception "APIConnectionError" "Connection reset."));
    reflexivity.
Defined.

(** C5 on the candle at 9.99: the amount sent is 999. *)
Lemma unit_amount_minor_units_witness :
  DecimalField_valid 10 2 (price candle)
  ∧ StripePriceCreate "prod_1" 999 "usd" (inr "price_1")
      ∈ new_events (save_model candle false) env_up empty_world
  ∧ 999 = unit_amount candle
  ∧ (inject_Z 999 == round_to_cents (price candle) * inject_Z 100)%Q.
Proof.
  assert (Hvalid : DecimalField_valid 10 2 (price candle))
    by (split; [by vm_compute | reflexivity]).
  assert (Hin : StripePriceCreate "prod_1" 999 "usd" (inr "price_1")
                ∈ new_events (save_model candle false) env_up empty_world)
    by (apply (list_elem_of_lookup_2 _ 1%nat); reflexivity).
  split; [exact Hvalid|]. split; [exact Hin|].
  apply (unit_amount_minor_units candle false env_up empty_world
           "prod_1" 999 "usd" (inr "price_1") Hvalid Hin).
Defined.

(** C4 on the synced candle, saved once and then edited three times. *)
Lemma no_second_sync_witness :
  stripe_product_id synced_candle ≠ ""
  ∧ products shop_world !! 1 = Some synced_candle
  ∧ filter is_external
      (new_events (save_model synced_candle true) env_up shop_world) = []
  ∧ filter is_external
      (drop (length (trace shop_world))
         (trace (serve (ChangeProduct 1 <$> [candle_form; candle_form; candle_form])
                   env_up shop_world))) = [].
Proof.
  assert (Hid : stripe_product_id synced_candle ≠ "") by done.
  split; [exact Hid|]. split; [reflexivity|].
  destruct (no_second_sync synced_candle true env_up shop_world Hid)
    as (_ & Hone & _ & Hmany & _).
  split; [exact Hone|].
  apply (Hmany 1 [candle_form; candle_form; candle_form]); reflexivity.
Defined.

(** C6 on a new profile with the backend out of reach. *)
Lemma provisioning_failure_contained_witness :
  let row := ReaderProfile.with_pk 1 (ReaderProfile.pre_save true 1000 ann) in
  let w1 := set_readers {[ 1 := row ]}
              (emit (DbInsert "readers_readerprofile" 1) empty_world) in
  ModelAdmin_save_model ann false env_flaky empty_world = (Return row, w1)
  ∧ ∃ w2, ReaderProfileAdmin.save_model ann false env_flaky empty_world
          = (Return row, w2)
          ∧ readers w2 = readers w1
          ∧ Print (backend_error_line
                     (Exception "ConnectionError" "Connection refused."))
              ∈ trace w2.
Proof.
  cbv zeta. split; [reflexivity|].
  destruct (provisioning_failure_contained ann false env_flaky empty_world
              _ _ eq_refl) as (w2 & Hs & Hr & _ & _ & _ & Hlog).
  exists w2. split; [exact Hs|]. split; [exact Hr|].
  apply Hlog; reflexivity.
Defined.
End samples.

(** * Further properties *)

(** ** Reader profiles: uniqueness and the log of the hook *)

Section reader_extras.
Import ReaderProfile ReaderProfileAdmin.
Implicit Types (obj row : t) (env : Env) (w : World) (change : bool).

Lemma Reader_save_cases obj env w :
  let k := reader_save_key obj w in
  (reader_column_free clerk_id (clerk_id obj) k w
   ∧ reader_column_free email (email obj) k w
   ∧ ∃ row w1, Model_save obj env w = (Return row, w1))
  ∨ (¬ (reader_column_free clerk_id (clerk_id obj) k w
        ∧ reader_column_free email (email obj) k w)
     ∧ ∃ column,
         (column = "clerk_id" ∨ column = "email")
         ∧ Model_save obj env w
           = (Raise (Exception "IntegrityError"
                       ("UNIQUE constraint failed: readers_readerprofile."
                        +:+ column)),
              w)).
Proof.
  intros k. unfold Model_save.
  cbn [table set_table unique_columns get_pk Model_with_pk Model_pre_save
       db_table ReaderProfile_Model List.find snd fst].
  fold (reader_save_key obj w). fold k.
  set (add := match _ with None => true | _ => false end).
  set (row := with_pk k (pre_save add (clock w) obj)).
  assert (Hfree : ∀ col : t → string,
            col row = col obj →
            unique_taken col k row (readers w) = false
            ↔ reader_column_free col (col obj) k w).
  { intros col Hcol. split.
    - intros E k' r Hl Hk Hc.
      assert (unique_taken col k row (readers w) = true) as E'
        by (apply unique_taken_spec; exists k', r; by rewrite Hcol).
      congruence.
    - intros Hf. destruct (unique_taken col k row (readers w)) eqn:E; [|done].
      apply unique_taken_spec in E as (k' & r & Hl & Hk & Hc).
      rewrite Hcol in Hc. by destruct (Hf k' r Hl Hk). }
  destruct (unique_taken clerk_id k row (readers w)) eqn:E1.
  { right. split.
    - intros [H _]. apply (Hfree clerk_id eq_refl) in H. congruence.
    - exists "clerk_id". split; [by left | done]. }
  destruct (unique_taken email k row (readers w)) eqn:E2.
  { right. split.
    - intros [_ H]. apply (Hfree email eq_refl) in H. congruence.
    - exists "email". split; [by right | done]. }
  left. split; [by apply (Hfree clerk_id eq_refl)|].
  split; [by apply (Hfree email eq_refl)|]. by eexists _, _.
Qed.

(** X1.  A reader profile is saved exactly when no other stored profile has
    its clerk id or its email.  Otherwise [save_model] raises an
    IntegrityError naming one of the two columns and leaves the world as it
    was: no row is written, no request is sent, nothing is printed. *)
Theorem reader_save_requires_unique obj change env w :
  let k := reader_save_key obj w in
  (reader_column_free clerk_id (clerk_id obj) k w
   ∧ reader_column_free email (email obj) k w
   ∧ ∃ row w2, save_model obj change env w = (Return row, w2)
               ∧ readers w2 !! k = Some row)
  ∨ (¬ (reader_column_free clerk_id (clerk_id obj) k w
        ∧ reader_column_free email (email obj) k w)
     ∧ ∃ column,
         (column = "clerk_id" ∨ column = "email")
         ∧ save_model obj change env w
           = (Raise (Exception "IntegrityError"
                       ("UNIQUE constraint failed: readers_readerprofile."
                        +:+ column)),
              w)).
Proof.
  intros k. rewrite Reader_save_model_unfold. unfold ModelAdmin_save_model.
  destruct (Reader_save_cases obj env w)
    as [(H1 & H2 & row & w1 & E) | (Hn & column & Hc & E)]; rewrite E.
  - left. split; [done|]. split; [done|].
    pose proof E as E'. apply Reader_save_returns in E'
      as (k0 & add & Hrow & Hreaders & _ & _ & _).
    assert (k0 = k) as ->.
    { unfold Model_save in E. cbn in E.
      destruct (unique_taken _ _ _ _) in E; [done|].
      destruct (unique_taken _ _ _ _) in E; [done|].
      injection E as E _. rewrite Hrow in E.
      by injection E. }
    destruct change.
    + exists row, w1. split; [done|]. rewrite Hreaders. apply lookup_insert_eq.
    + rewrite try_statement_new. cbn zeta. eexists row, _. split; [done|].
      destruct (requests_post env (trace w1) _ _) as [e | status_code];
        [|destruct (bool_decide (status_code = 201))]; cbn;
        rewrite Hreaders; apply lookup_insert_eq.
  - right. split; [done|]. by exists column.
Qed.

(** A second profile with the clerk id of a stored one (and an email of its
    own) is refused, and the world is as before. *)
Example duplicate_reader_refused :
  let w1 := (save_model ann false env_up empty_world).2 in
  save_model ann_namesake false env_up w1
  = (Raise (Exception "IntegrityError"
              "UNIQUE constraint failed: readers_readerprofile.clerk_id"),
     w1).
Proof. by vm_compute. Qed.

(** X2.  What a new profile's save adds after the database write: the one
    request, then the success line exactly when the answer's status is 201,
    the error line exactly when the request raised, and nothing for any
    other status. *)
Theorem reader_hook_log obj env w row w1 :
  ModelAdmin_save_model obj false env w = (Return row, w1) →
  let outcome :=
    requests_post env (trace w1) (readers_url env) (request_body obj) in
  ∃ w2,
    save_model obj false env w = (Return row, w2)
    ∧ trace w2
      = trace w1
        ++ RequestsPost (readers_url env) (request_body obj) outcome
           :: backend_log obj outcome.
Proof.
  intros Hsave outcome. rewrite Reader_save_model_unfold, Hsave.
  unfold ModelAdmin_save_model in Hsave.
  apply Reader_save_returns in Hsave as (k & add & Hrow & _).
  rewrite try_statement_new. cbn zeta.
  rewrite Hrow, request_body_saved. rewrite <- Hrow. fold outcome.
  eexists. split; [reflexivity|].
  unfold backend_log. subst row.
  destruct outcome as [e | status_code]; cbn.
  - by rewrite <- app_assoc.
  - destruct (bool_decide (status_code = 201)); cbn; [|done].
    by rewrite <- app_assoc.
Qed.

Lemma reader_hook_log_witness :
  let row := with_pk 1 (pre_save true 1000 ann) in
  let w1 := set_readers {[ 1 := row ]}
              (emit (DbInsert "readers_readerprofile" 1) empty_world) in
  ModelAdmin_save_model ann false env_down empty_world = (Return row, w1)
  ∧ ∃ w2, save_model ann false env_down empty_world = (Return row, w2)
          ∧ trace w2
            = [DbInsert "readers_readerprofile" 1;
               RequestsPost "http://localhost:5000/api/admin/readers"
                 (request_body ann) (inr 500)].
Proof.
  cbv zeta. split; [reflexivity|].
  destruct (reader_hook_log ann env_down empty_world _ _ eq_refl)
    as (w2 & Hs & Htr).
  exists w2. split; [exact Hs|]. exact Htr.
Defined.
End reader_extras.

(** ** Saving, for every model *)

#[global] Instance ReaderProfile_laws : ModelLaws ReaderProfile.t.
Proof. by split. Qed.

#[global] Instance Product_laws : ModelLaws Product.t.
Proof. by split. Qed.

#[global] Instance VirtualGift_laws : ModelLaws VirtualGift.t.
Proof. by split. Qed.

Section model_save.
Context `{ModelLaws A}.
Implicit Types (obj row : A) (env : Env) (w : World).



End model_save.

Section model_save_samples.
Import Product ProductAdmin.

End model_save_samples.

(** ** Virtual gifts *)

Section gift_extras.
Import VirtualGift.

(** No column of a gift is unique, so its save never raises. *)
Lemma gift_save_returns (g : t) change env w :
  let k := default (next_pk (gifts w)) (pk g) in
  let add := match gifts w !! k with None => true | Some _ => false end in
  let row := with_pk k (pre_save add (clock w) g) in
  VirtualGiftAdmin.save_model g change env w
  = (Return row,
     set_gifts (<[k := row]> (gifts w))
       (emit (if add then DbInsert "readers_virtualgift" k
              else DbUpdate "readers_virtualgift" k) w)).
Proof. reflexivity. Qed.

Lemma save_gifts_trace (gs : list t) env :
  ∀ w, ∃ evs, trace (save_gifts gs env w) = trace w ++ evs.
Proof.
  induction gs as [|g gs IH]; intros w; cbn [save_gifts].
  - exists []. by rewrite app_nil_r.
  - rewrite gift_save_returns. cbn zeta. cbn [snd].
    match goal with |- context [save_gifts gs env ?w1] =>
      destruct (IH w1) as [evs ->] end.
    cbn. eexists. by rewrite <- app_assoc.
Qed.

(** X5.  Gifts are never refused: whatever is stored already (also gifts
    with the same name and price), a series of new gifts is saved one row
    each, without any request to Stripe or the backend and with the other
    two tables untouched. *)
Theorem gifts_always_saved (gs : list t) env :
  Forall (λ g, pk g = None) gs →
  ∀ w,
    let w' := save_gifts gs env w in
    size (gifts w') = (size (gifts w) + length gs)%nat
    ∧ readers w' = readers w ∧ products w' = products w
    ∧ filter is_external (drop (length (trace w)) (trace w')) = [].
Proof.
  induction 1 as [|g gs Hpk _ IH]; intros w; cbn zeta.
  - cbn. rewrite drop_all. split; [lia|done].
  - cbn [save_gifts]. rewrite gift_save_returns. cbn zeta. rewrite Hpk.
    cbn [default snd].
    rewrite (next_pk_fresh (gifts w)).
    set (k := next_pk (gifts w)). set (row := with_pk k _).
    set (w1 := set_gifts _ _).
    destruct (IH w1) as (Hsize & Hr & Hp & Hev). cbn zeta in *.
    rewrite Hsize, Hr, Hp.
    split.
    { subst w1. cbn. rewrite map_size_insert_None by apply next_pk_fresh.
      cbn. lia. }
    split; [done|]. split; [done|].
    destruct (save_gifts_trace gs env w1) as [evs Htr].
    rewrite Htr in Hev |- *.
    rewrite drop_app_length in Hev.
    subst w1. cbn [trace set_gifts emit]. rewrite <- app_assoc.
    rewrite drop_app_length. cbn. exact Hev.
Qed.

Lemma gifts_always_saved_witness :
  let rose := {| pk := None; name := "Rose"; description := "A red rose";
                 price := Decimal 199 (-2); icon_url := "";
                 animation_url := ""; is_active := true; created_at := 0 |} in
  Forall (λ g, pk g = None) [rose; rose; rose]
  ∧ size (gifts (save_gifts [rose; rose; rose] env_down empty_world)) = 3%nat.
Proof.
  cbv zeta.
  assert (Hnew : Forall (λ g, pk g = None)
                   (replicate 3
                      {| pk := None; name := "Rose"; description := "A red rose";
                         price := Decimal 199 (-2); icon_url := "";
                         animation_url := ""; is_active := true;
                         created_at := 0 |}))
    by (repeat constructor).
  split; [exact Hnew|].
  apply (gifts_always_saved _ env_down Hnew empty_world).
Defined.
End gift_extras.

(** ** Products: what a save writes and what it leaves alone *)

Section product_extras.
Import Product ProductAdmin.
Implicit Types (obj : t) (env : Env) (w : World) (change : bool).

Lemma emit_all_app (evs1 evs2 : list Event) w :
  emit_all (evs1 ++ evs2) w = emit_all evs2 (emit_all evs1 w).
Proof. apply foldl_app. Qed.

Lemma emit_all_frame (evs : list Event) w :
  readers (emit_all evs w) = readers w
  ∧ products (emit_all evs w) = products w
  ∧ gifts (emit_all evs w) = gifts w
  ∧ clock (emit_all evs w) = clock w
  ∧ stripe_api_key (emit_all evs w) = stripe_api_key w
  ∧ trace (emit_all evs w) = trace w ++ evs.
Proof.
  revert w. induction evs as [|ev evs IH]; intros w.
  - cbn. by rewrite app_nil_r.
  - change (emit_all (ev :: evs) w) with (emit_all evs (emit ev w)).
    destruct (IH (emit ev w)) as (-> & -> & -> & -> & -> & ->).
    cbn. by rewrite <- app_assoc.
Qed.

(** The [try] statement, exactly: it returns, and the world it leaves is
    the world it found with the hook's events added. *)
Lemma try_statement_exact obj env w :
  ∃ o hook,
    hook_outcome env (stripe_api_key w) (trace w) obj o hook
    ∧ try_except (save_model_try obj) (save_model_except obj) env w
      = (Return o, emit_all hook w).
Proof.
  unfold try_except.
  destruct (decide (stripe_product_id obj = "")) as [Hid | Hid].
  - rewrite (try_without_identifier _ _ _ Hid). cbn zeta.
    destruct (stripe_Product_create _ _ _ _ _) as [e | pid] eqn:Hprod.
    { eexists _, _. split; [by apply (hook_product_failed _ _ _ _ e)|done]. }
    destruct (stripe_Price_create _ _ _ _ _ _) as [e | price_id] eqn:Hprice;
      eexists _, _.
    + split; [by apply (hook_price_failed _ _ _ _ pid e)|done].
    + split; [by apply (hook_synced _ _ _ _ pid price_id)|done].
  - rewrite (try_with_identifier _ _ _ Hid). eexists _, _.
    split; [by apply hook_skipped|done].
Qed.

(** [save_model], exactly: the hook's events, then the ordinary save of the
    record the hook left. *)
Lemma save_model_exact obj change env w :
  ∃ o hook,
    hook_outcome env (configured_key env) (trace w) obj o hook
    ∧ save_model obj change env w
      = Model_save o env (emit_all hook (keyed env w)).
Proof.
  destruct (try_statement_exact obj env (keyed env w)) as (o & hook & Hout & E).
  exists o, hook. split; [exact Hout|].
  rewrite save_model_unfold, E. reflexivity.
Qed.

(** The two ways a product save ends: the row [with_pk k (pre_save ...)] is
    written under the save key, or the database refuses and no table
    changes.  Either way the other tables and the clock are untouched and
    [stripe.api_key] is the configured key. *)
Lemma save_model_ends obj change env w :
  let k := save_key obj w in
  let add := match products w !! k with None => true | Some _ => false end in
  ∃ o hook w',
    hook_outcome env (configured_key env) (trace w) obj o hook
    ∧ readers w' = readers w ∧ gifts w' = gifts w ∧ clock w' = clock w
    ∧ stripe_api_key w' = configured_key env
    ∧ ((save_model obj change env w
        = (Return (with_pk k (pre_save add (clock w) o)), w')
        ∧ products w' = <[k := with_pk k (pre_save add (clock w) o)]> (products w)
        ∧ ∃ db, trace w' = trace w ++ hook ++ [db] ∧ is_external db = false)
       ∨ (∃ e, save_model obj change env w = (Raise e, w')
               ∧ products w' = products w ∧ trace w' = trace w ++ hook)).
Proof.
  intros k add.
  destruct (save_model_exact obj change env w) as (o & hook & Hout & ->).
  set (w1 := emit_all hook (keyed env w)).
  destruct (emit_all_frame hook (keyed env w))
    as (Hr & Hp & Hg & Hc & Hk & Ht). fold w1 in Hr, Hp, Hg, Hc, Hk, Ht.
  cbn in Hr, Hp, Hg, Hc, Hk, Ht.
  assert (Hkey : save_key o w1 = k).
  { unfold save_key, k. by rewrite Hp, (hook_outcome_pk _ _ _ _ _ _ Hout). }
  exists o, hook.
  destruct (Product_save_cases o env w1) as [[_ E] | [_ E]];
    rewrite E; rewrite ?Hkey, ?Hp, ?Hc.
  - fold add.
    exists (set_products (<[k := with_pk k (pre_save add (clock w) o)]> (products w))
              (emit (if add then DbInsert "readers_product" k
                     else DbUpdate "readers_product" k) w1)).
    split; [exact Hout|]. cbn.
    split; [done|]. split; [done|]. split; [done|]. split; [done|].
    left. split; [done|]. split; [done|].
    eexists. rewrite Ht, <- app_assoc. split; [done|].
    by destruct add.
  - exists w1. split; [exact Hout|].
    split; [done|]. split; [done|]. split; [done|]. split; [done|].
    right. eexists. by split.
Qed.
Lemma then_return_result {A} (m : M A) env w :
  ((m;; mret ()) env w).1
  = match (m env w).1 with Return _ => Return () | Raise e => Raise e end.
Proof.
  unfold mbind, M_bind, mret, M_ret. by destruct (m env w) as [[a | e] w'].
Qed.

(** X6.  An edit is all or nothing.  Either the view returns and the row
    under the key is replaced by one that shows exactly the submitted form,
    keeps its key and its creation time, has the clock as update time and
    keeps an identifier it had; or it raises and the product table is as it
    was.  The other two tables are untouched in both cases. *)
Theorem edit_all_or_nothing env w (k : Z) (r : t) (form : Form.t) :
  products w !! k = Some r →
  pk r = Some k →
  let res := change_view k form env w in
  readers res.2 = readers w ∧ gifts res.2 = gifts w
  ∧ ((∃ r', res.1 = Return ()
            ∧ products res.2 = <[k := r']> (products w)
            ∧ form_of r' = form ∧ pk r' = Some k
            ∧ created_at r' = created_at r ∧ updated_at r' = clock w
            ∧ (stripe_product_id r ≠ "" →
               stripe_product_id r' = stripe_product_id r))
     ∨ (∃ e, res.1 = Raise e ∧ products res.2 = products w)).
Proof.
  intros Hl Hpk res. subst res. unfold change_view. rewrite Hl.
  rewrite then_return_world, then_return_result.
  set (obj := construct_instance form r).
  assert (Hkey : save_key obj w = k) by (unfold save_key; cbn; by rewrite Hpk).
  destruct (save_model_ends obj true env w)
    as (o & hook & w' & Hout & Hr & Hg & _ & _ & Hend).
  rewrite Hkey, Hl in Hend.
  destruct Hend as [(-> & Hp & _) | (e & -> & Hp & _)]; cbn [fst snd].
  - split; [done|]. split; [done|]. left. eexists.
    split; [done|]. split; [exact Hp|].
    split; [destruct Hout; subst obj; by destruct form|]. split; [done|].
    split; [by destruct Hout|]. split; [done|].
    intros Hid. by apply hook_outcome_with_identifier in Hout as [-> _].
  - split; [done|]. split; [done|]. right. by exists e.
Qed.

(** What one request does to the product table: nothing, or it writes one
    row under the request's key; a row it replaces keeps its creation time
    and an identifier it had. *)
Lemma handle_ends (req : Request) env w :
  keys_consistent w →
  let w' := (handle req env w).2 in
  let k := request_key req w in
  readers w' = readers w ∧ gifts w' = gifts w ∧ clock w' = clock w
  ∧ (products w' = products w
     ∨ ∃ row, products w' = <[k := row]> (products w)
              ∧ pk row = Some k
              ∧ match products w !! k with
                | Some r =>
                    created_at row = created_at r
                    ∧ (stripe_product_id r ≠ "" →
                       stripe_product_id row = stripe_product_id r)
                | None => created_at row = clock w
                end).
Proof.
  intros Hkeys w' k. subst w'.
  assert (Hstep : ∀ obj change,
    save_key obj w = k →
    match products w !! k with
    | Some r => created_at obj = created_at r
                ∧ stripe_product_id obj = stripe_product_id r
    | None => True
    end →
    let w' := (save_model obj change env w).2 in
    readers w' = readers w ∧ gifts w' = gifts w ∧ clock w' = clock w
    ∧ (products w' = products w
       ∨ ∃ row, products w' = <[k := row]> (products w)
                ∧ pk row = Some k
                ∧ match products w !! k with
                  | Some r =>
                      created_at row = created_at r
                      ∧ (stripe_product_id r ≠ "" →
                         stripe_product_id row = stripe_product_id r)
                  | None => created_at row = clock w
                  end)).
  { intros obj change Hkey Hobj.
    destruct (save_model_ends obj change env w)
      as (o & hook & w' & Hout & Hr & Hg & Hc & _ & Hend).
    rewrite Hkey in Hend.
    destruct Hend as [(-> & Hp & _) | (e & -> & Hp & _)]; cbn [snd].
    - split; [done|]. split; [done|]. split; [done|]. right. eexists.
      split; [exact Hp|]. split; [done|].
      destruct (products w !! k) as [r|]; cbn.
      + destruct Hobj as [Hcr Hid]. split; [by destruct Hout|].
        intros Hne. rewrite <- Hid in Hne.
        apply hook_outcome_with_identifier in Hout as [-> _]; done.
      + by destruct Hout.
    - split; [done|]. split; [done|]. split; [done|]. by left. }
  destruct req as [form | k0 form]; cbn [handle request_key] in *.
  - unfold add_view. rewrite then_return_world. apply Hstep; [done|].
    subst k. by rewrite next_pk_fresh.
  - unfold change_view. destruct (products w !! k0) as [r|] eqn:Hl.
    + rewrite then_return_world. apply Hstep.
      * unfold save_key. cbn. by rewrite (Hkeys _ _ Hl).
      * subst k. by rewrite Hl.
    + cbn. repeat split; try done. by left.
Qed.

(** X7.  The read-only fields hold across requests: whatever series of add
    and change requests is served, a stored product stays stored under its
    key, with the creation time it had and with the identifier it had, if
    it had one; and the keys of the table stay consistent. *)
Theorem readonly_fields_survive (requests : list Request) env :
  ∀ w (k : Z) (r : t),
    keys_consistent w →
    products w !! k = Some r →
    let w' := serve requests env w in
    keys_consistent w'
    ∧ ∃ r', products w' !! k = Some r'
            ∧ pk r' = Some k
            ∧ created_at r' = created_at r
            ∧ (stripe_product_id r ≠ "" →
               stripe_product_id r' = stripe_product_id r).
Proof.
  induction requests as [|req requests IH]; intros w k r Hkeys Hl; cbn zeta.
  - cbn. split; [done|]. exists r. split; [done|]. split; [by apply Hkeys|done].
  - cbn [serve].
    destruct (handle_ends req env w Hkeys) as (_ & _ & _ & Hp).
    cbn zeta in Hp. set (w1 := (handle req env w).2) in *.
    assert (Hone : keys_consistent w1
                   ∧ ∃ r1, products w1 !! k = Some r1
                           ∧ created_at r1 = created_at r
                           ∧ (stripe_product_id r ≠ "" →
                              stripe_product_id r1 = stripe_product_id r)).
    { unfold keys_consistent in *.
      destruct Hp as [-> | (row & -> & Hrow & Hold)].
      - split; [done|]. by exists r.
      - split.
        + intros k1 r1.
          destruct (decide (request_key req w = k1)) as [<- | Hne].
          * rewrite lookup_insert_eq. by intros [= <-].
          * rewrite lookup_insert_ne by done. apply Hkeys.
        + destruct (decide (request_key req w = k)) as [Heq | Hne].
          * rewrite Heq in *. rewrite Hl in Hold. exists row.
            by rewrite lookup_insert_eq.
          * exists r. by rewrite lookup_insert_ne. }
    destruct Hone as (Hkeys1 & r1 & Hl1 & Hc1 & Hid1).
    destruct (IH w1 k r1 Hkeys1 Hl1) as (Hkeys2 & r2 & Hl2 & Hpk2 & Hc2 & Hid2).
    split; [done|]. exists r2. split; [done|]. split; [done|].
    split; [congruence|].
    intros Hne. rewrite Hid2, Hid1; try done. by rewrite Hid1.
Qed.

(** X8.  A request writes at most the row under its own key and never the
    other tables: an edit leaves every other product as it is, and an add
    request leaves every stored product as it is. *)
Theorem request_touches_one_row (req : Request) env w :
  keys_consistent w →
  let w' := (handle req env w).2 in
  readers w' = readers w ∧ gifts w' = gifts w
  ∧ (∀ k', k' ≠ request_key req w → products w' !! k' = products w !! k')
  ∧ (∀ form, req = AddProduct form →
       ∀ k' r, products w !! k' = Some r → products w' !! k' = Some r).
Proof.
  intros Hkeys w'.
  destruct (handle_ends req env w Hkeys) as (Hr & Hg & _ & Hp).
  cbn zeta in *. fold w' in Hr, Hg, Hp.
  split; [done|]. split; [done|].
  assert (Hother : ∀ k', k' ≠ request_key req w →
                     products w' !! k' = products w !! k').
  { intros k' Hne. destruct Hp as [-> | (row & -> & _)]; [done|].
    by rewrite lookup_insert_ne. }
  split; [exact Hother|].
  intros form -> k' r Hl. rewrite Hother; [done|].
  cbn. intros ->. by rewrite next_pk_fresh in Hl.
Qed.

(** X9.  Every product save assigns [stripe.api_key] from the environment
    variable STRIPE_SECRET_KEY, whether or not Stripe is called and however
    the save ends; with the variable unset the key becomes [None]. *)
Theorem api_key_from_environment obj change env w :
  stripe_api_key (save_model obj change env w).2
  = environ env !! "STRIPE_SECRET_KEY".
Proof.
  destruct (save_model_ends obj change env w)
    as (o & hook & w' & _ & _ & _ & _ & Hk & [(-> & _) | (e & -> & _)]);
    exact Hk.
Qed.
Lemma shop_world_consistent : keys_consistent shop_world.
Proof.
  intros k r Hl. unfold shop_world in Hl. cbn [products] in Hl.
  apply lookup_singleton_Some in Hl as [<- <-]. reflexivity.
Defined.

Lemma edit_all_or_nothing_witness :
  products shop_world !! 1 = Some synced_candle
  ∧ pk synced_candle = Some 1
  ∧ readers (change_view 1 candle_form env_up shop_world).2 = readers shop_world
  ∧ gifts (change_view 1 candle_form env_up shop_world).2 = gifts shop_world.
Proof.
  split; [reflexivity|]. split; [reflexivity|].
  destruct (edit_all_or_nothing env_up shop_world 1 synced_candle candle_form
              eq_refl eq_refl) as (Hr & Hg & _).
  split; [exact Hr | exact Hg].
Defined.

Lemma readonly_fields_survive_witness :
  keys_consistent shop_world
  ∧ products shop_world !! 1 = Some synced_candle
  ∧ ∃ r', products (serve [AddProduct candle_form; ChangeProduct 1 candle_form]
                      env_up shop_world) !! 1 = Some r'
          ∧ pk r' = Some 1
          ∧ created_at r' = created_at synced_candle.
Proof.
  split; [exact shop_world_consistent|]. split; [reflexivity|].
  destruct (readonly_fields_survive
              [AddProduct candle_form; ChangeProduct 1 candle_form] env_up
              shop_world 1 synced_candle shop_world_consistent eq_refl)
    as (_ & r' & Hl & Hpk & Hc & _).
  exists r'. split; [exact Hl|]. split; [exact Hpk | exact Hc].
Defined.

Lemma request_touches_one_row_witness :
  keys_consistent shop_world
  ∧ readers (handle (AddProduct candle_form) env_up shop_world).2
    = readers shop_world
  ∧ products (handle (AddProduct candle_form) env_up shop_world).2 !! 1
    = Some synced_candle.
Proof.
  split; [exact shop_world_consistent|].
  destruct (request_touches_one_row (AddProduct candle_form) env_up shop_world
              shop_world_consistent) as (Hr & _ & _ & Hadd).
  split; [exact Hr|].
  apply (Hadd candle_form eq_refl 1 synced_candle). reflexivity.
Defined.

(** Solves [l ++ x :: l2 = l0] for an explicit list [l0]. *)
Ltac split_events H :=
  lazymatch type of H with
  | ?l ++ _ :: _ = [] => exfalso; by destruct l
  | ?l ++ _ :: _ = _ :: _ =>
      let e := fresh "e" in
      let l' := fresh "l" in
      destruct l as [|e l']; cbn in H;
      [ first [discriminate H | injection H as H ?; subst]
      | injection H as -> H; split_events H ]
  end.

(** X10.  A price is only ever created for the product created just before
    it in the same save: whenever a price request is among the events of a
    save, the events before it are exactly one successful product creation,
    from the record's name and description, and the price is attached to
    the identifier that creation returned. *)
Theorem price_follows_product obj change env w
    (evs1 evs2 : list Event) (p : string) (a : Z) (c : string) (o : exn + string) :
  new_events (save_model obj change) env w
  = evs1 ++ StripePriceCreate p a c o :: evs2 →
  evs1 = [StripeProductCreate (name obj) (description obj) (inr p)].
Proof.
  intros Hev.
  assert (Hshape : ∃ o' hook db,
            hook_outcome env (configured_key env) (trace w) obj o' hook
            ∧ (new_events (save_model obj change) env w = hook ++ db)
            ∧ (db = [] ∨ ∃ ev, db = [ev] ∧ is_external ev = false)).
  { destruct (save_model_ends obj change env w)
      as (o' & hook & w' & Hout & _ & _ & _ & _ & Hend).
    exists o', hook.
    destruct Hend as [(E & _ & db & Htr & Hdb) | (e & E & _ & Htr)].
    - exists [db]. split; [done|]. split; [|right; by exists db].
      apply new_events_app. by rewrite E.
    - exists []. split; [done|]. split; [|by left].
      apply new_events_app. rewrite E. cbn. by rewrite app_nil_r. }
  destruct Hshape as (o' & hook & db & Hout & Hnew & Hdb).
  rewrite Hnew in Hev. clear Hnew.
  symmetry in Hev.
  destruct Hdb as [-> | (ev & -> & Hext)]; destruct Hout; cbn in Hev;
    split_events Hev; try done; try (by cbn in Hext).
Qed.
Lemma price_follows_product_witness :
  new_events (save_model candle false) env_up empty_world
  = [StripeProductCreate "Candle" "A white candle" (inr "prod_1")]
    ++ StripePriceCreate "prod_1" 999 "usd" (inr "price_1")
       :: [DbInsert "readers_product" 1]
  ∧ [StripeProductCreate "Candle" "A white candle" (inr "prod_1")]
    = [StripeProductCreate (name candle) (description candle) (inr "prod_1")].
Proof.
  assert (E : new_events (save_model candle false) env_up empty_world
              = [StripeProductCreate "Candle" "A white candle" (inr "prod_1")]
                ++ StripePriceCreate "prod_1" 999 "usd" (inr "price_1")
                   :: [DbInsert "readers_product" 1]) by reflexivity.
  split; [exact E|].
  exact (price_follows_product candle false env_up empty_world _ _ _ _ _ _ E).
Defined.

(** The events of a product save: the hook's, then at most the write. *)
Lemma product_save_events obj change env w :
  ∃ o hook db,
    hook_outcome env (configured_key env) (trace w) obj o hook
    ∧ new_events (save_model obj change) env w = hook ++ db
    ∧ filter is_external db = [].
Proof.
  destruct (save_model_ends obj change env w)
    as (o & hook & w' & Hout & _ & _ & _ & _ & Hend).
  exists o, hook.
  destruct Hend as [(E & _ & db & Htr & Hdb) | (e & E & _ & Htr)].
  - exists [db]. split; [done|]. split; [|by cbn; rewrite Hdb].
    apply new_events_app. by rewrite E.
  - exists []. split; [done|]. split; [|done].
    apply new_events_app. rewrite E. cbn. by rewrite app_nil_r.
Qed.

(** X11.  A product save sends at most two requests, both to Stripe, and
    never one to the backend: there is no retry within a save. *)
Theorem product_save_calls_bounded obj change env w :
  let calls := filter is_external (new_events (save_model obj change) env w) in
  (length calls ≤ 2)%nat
  ∧ Forall (λ ev, is_stripe_call ev = true) calls.
Proof.
  destruct (product_save_events obj change env w)
    as (o & hook & db & Hout & -> & Hdb).
  cbn zeta. rewrite filter_app, Hdb, app_nil_r.
  destruct Hout; cbn; split; try lia; repeat constructor.
Qed.

(** X12.  Every edit of a stored product without identifier begins with a
    fresh attempt to create it at Stripe, under the name and description
    just submitted: a failed sync is tried again at the next save. *)
Theorem unsynced_edit_retries env w (k : Z) (r : t) (form : Form.t) :
  products w !! k = Some r →
  stripe_product_id r = "" →
  ∃ outcome rest,
    new_events (change_view k form) env w
    = StripeProductCreate (Form.name form) (Form.description form) outcome
      :: rest.
Proof.
  intros Hl Hid. unfold new_events, change_view. rewrite Hl.
  rewrite then_return_world.
  set (obj := construct_instance form r).
  destruct (product_save_events obj true env w)
    as (o & hook & db & Hout & Hev & _).
  unfold new_events in Hev. rewrite Hev.
  destruct Hout as [Hne | | |]; [done | | |]; by eexists _, _.
Qed.

Lemma unsynced_edit_retries_witness :
  products backlog_world !! 1 = Some unsynced_candle
  ∧ stripe_product_id unsynced_candle = ""
  ∧ ∃ outcome rest,
      new_events (change_view 1 candle_form) env_down backlog_world
      = StripeProductCreate "Candle (large)" "A large white candle" outcome
        :: rest.
Proof.
  split; [reflexivity|]. split; [reflexivity|].
  exact (unsynced_edit_retries env_down backlog_world 1 unsynced_candle
           candle_form eq_refl eq_refl).
Defined.
Lemma product_created_external (ev : Event) :
  is_external ev = false → product_created ev = false.
Proof. by destruct ev. Qed.

(** One edit while Stripe creates products and refuses prices: one more
    product is created there, and the row is still without identifier. *)
Lemma failing_price_step env w (k : Z) (r : t) (form : Form.t) :
  (∀ key tr n d, ∃ pid, stripe_Product_create env key tr n d = inr pid) →
  (∀ key tr p a c, ∃ e, stripe_Price_create env key tr p a c = inl e) →
  products w !! k = Some r →
  pk r = Some k →
  stripe_product_id r = "" →
  let w' := (change_view k form env w).2 in
  ∃ r' evs,
    products w' !! k = Some r' ∧ pk r' = Some k ∧ stripe_product_id r' = ""
    ∧ trace w' = trace w ++ evs
    ∧ length (filter product_created evs) = 1%nat.
Proof.
  intros Hcreate Hrefuse Hl Hpk Hid w'. subst w'.
  unfold change_view. rewrite Hl, then_return_world.
  set (obj := construct_instance form r).
  assert (Hkey : save_key obj w = k) by (unfold save_key; cbn; by rewrite Hpk).
  destruct (save_model_ends obj true env w)
    as (o & hook & w' & Hout & _ & _ & _ & _ & Hend).
  rewrite Hkey, Hl in Hend.
  assert (Hhook : o = obj ∧ length (filter product_created hook) = 1%nat).
  { destruct Hout as [Hne | e _ Hp | pid e _ _ _ | pid price_id _ _ Hp].
    - done.
    - destruct (Hcreate (configured_key env) (trace w) (name obj) (description obj))
        as [pid Hpid]. congruence.
    - done.
    - destruct (Hrefuse (configured_key env)
                  (trace w ++ [StripeProductCreate (name obj) (description obj)
                                 (inr pid)])
                  pid (unit_amount obj) "usd") as [e He]. congruence. }
  destruct Hhook as [-> Hone].
  destruct Hend as [(-> & Hp & db & Htr & Hdb) | (e & -> & Hp & Htr)]; cbn [snd].
  - eexists _, (hook ++ [db]). rewrite Hp, lookup_insert_eq.
    split; [done|]. split; [done|]. split; [done|]. split; [done|].
    rewrite filter_app, length_app, Hone. cbn.
    by rewrite (product_created_external _ Hdb).
  - exists r, hook. by rewrite Hp.
Qed.

(** X13.  There is no idempotency key: while Stripe creates products and
    refuses their prices, every edit of a stored product without identifier
    leaves one more product at Stripe - as many as there were edits - and
    the row still has no identifier. *)
Theorem orphans_pile_up env (k : Z) (forms : list Form.t) :
  (∀ key tr n d, ∃ pid, stripe_Product_create env key tr n d = inr pid) →
  (∀ key tr p a c, ∃ e, stripe_Price_create env key tr p a c = inl e) →
  ∀ w (r : t),
    products w !! k = Some r →
    pk r = Some k →
    stripe_product_id r = "" →
    let w' := serve (ChangeProduct k <$> forms) env w in
    length (filter product_created (drop (length (trace w)) (trace w')))
    = length forms
    ∧ ∃ r', products w' !! k = Some r' ∧ stripe_product_id r' = "".
Proof.
  intros Hcreate Hrefuse.
  induction forms as [|form forms IH]; intros w r Hl Hpk Hid; cbn zeta.
  - cbn. rewrite drop_all. split; [done|]. by exists r.
  - cbn [fmap list_fmap serve handle].
    destruct (failing_price_step env w k r form Hcreate Hrefuse Hl Hpk Hid)
      as (r1 & evs1 & Hl1 & Hpk1 & Hid1 & Htr1 & Hone).
    set (w1 := (change_view k form env w).2) in *.
    destruct (IH w1 r1 Hl1 Hpk1 Hid1) as (Hcount & Hrow). cbn zeta in *.
    split; [|exact Hrow].
    destruct (serve_trace (ChangeProduct k <$> forms) env w1) as [evs2 Htr2].
    rewrite Htr2, drop_app_length in Hcount.
    rewrite Htr2, Htr1, <- app_assoc, drop_app_length, filter_app, length_app.
    rewrite Hone, Hcount. done.
Qed.

Lemma orphans_pile_up_witness :
  (∀ key tr n d, ∃ pid, stripe_Product_create env_flaky key tr n d = inr pid)
  ∧ (∀ key tr p a c, ∃ e, stripe_Price_create env_flaky key tr p a c = inl e)
  ∧ products backlog_world !! 1 = Some unsynced_candle
  ∧ length (filter product_created
              (drop (length (trace backlog_world))
                 (trace (serve (ChangeProduct 1 <$> [candle_form; candle_form])
                           env_flaky backlog_world))))
    = 2%nat.
Proof.
  assert (Hcreate : ∀ key tr n d,
            ∃ pid, stripe_Product_create env_flaky key tr n d = inr pid)
    by (intros; by eexists).
  assert (Hrefuse : ∀ key tr p a c,
            ∃ e, stripe_Price_create env_flaky key tr p a c = inl e)
    by (intros; by eexists).
  split; [exact Hcreate|]. split; [exact Hrefuse|]. split; [reflexivity|].
  apply (orphans_pile_up env_flaky 1 [candle_form; candle_form] Hcreate Hrefuse
           backlog_world unsynced_candle eq_refl eq_refl eq_refl).
Defined.
End product_extras.

(** ** The badge: statuses, colours and escaping *)

Section badge_extras.
Import ReaderProfile ReaderProfileAdmin.

(** X14.  The colour dictionary of [status_badge] and STATUS_CHOICES of the
    model agree: a status has its own colour exactly when it is one of the
    declared choices, so the gray default is reached only by a status
    outside the choices. *)
Theorem colors_cover_status_choices (s : string) :
  is_Some (colors !! s) ↔ s ∈ STATUS_CHOICES.*1.
Proof.
  unfold colors, STATUS_CHOICES. cbn [fmap list_fmap fst].
  rewrite !elem_of_cons, elem_of_nil.
  split.
  - intros [c Hc].
    destruct (decide (s = "online")) as [-> | H1]; [by left|].
    destruct (decide (s = "offline")) as [-> | H2]; [by right; left|].
    destruct (decide (s = "busy")) as [-> | H3]; [by right; right; left|].
    by rewrite !lookup_insert_ne, lookup_singleton_ne in Hc.
  - intros [-> | [-> | [-> | []]]]; by eexists.
Qed.

Lemma escape_no_markup (s : string) (c : ascii) :
  In c (list_ascii_of_string (escape s)) → ¬ markup c.
Proof.
  induction s as [|a s IH]; [done|]. cbn [escape].
  assert (Happ : ∀ s1 s2, list_ascii_of_string (s1 +:+ s2)
                          = list_ascii_of_string s1 ++ list_ascii_of_string s2).
  { intros s1 s2. induction s1 as [|b s1 IH1]; [done|]. cbn. by rewrite <- IH1. }
  rewrite Happ, in_app_iff. intros [Hin | Hin]; [|by apply IH].
  unfold markup.
  destruct (Ascii.eqb_spec a "&"); [cbn in Hin; intuition (subst; discriminate)|].
  destruct (Ascii.eqb_spec a "<"); [cbn in Hin; intuition (subst; discriminate)|].
  destruct (Ascii.eqb_spec a ">"); [cbn in Hin; intuition (subst; discriminate)|].
  destruct (Ascii.eqb_spec a "034"); [cbn in Hin; intuition (subst; discriminate)|].
  destruct (Ascii.eqb_spec a "'"); [cbn in Hin; intuition (subst; discriminate)|].
  cbn in Hin. destruct Hin as [<- | []]. intuition.
Qed.

(** X15.  Whatever the status field holds, the badge shows it escaped: the
    text between the tags of the span contains none of the characters
    [<], [>], the double quote and the single quote, so a status cannot
    inject markup into the change list. *)
Theorem badge_text_escaped (obj : t) :
  ∃ color text,
    status_badge obj = Some (badge_html color text)
    ∧ text = escape (upper (status obj))
    ∧ ∀ c, In c (list_ascii_of_string text) → ¬ markup c.
Proof.
  exists (color_of_status (status obj)), (escape (upper (status obj))).
  split; [|split; [done|]].
  - unfold status_badge, format_html.
    rewrite colors_lookup. cbn [fmap list_fmap].
    rewrite escape_color. reflexivity.
  - intros c. apply escape_no_markup.
Qed.
End badge_extras.

(** ** A new product in the listing *)

Section listing_extras.
Local Abbreviation product_order := (ordering (A := Product.t)).

#[local] Instance product_order_total : Total product_order.
Proof. intros a b. cbn. unfold Product.ordering. lia. Qed.

#[local] Instance product_order_trans : Transitive product_order.
Proof. intros a b c. cbn. unfold Product.ordering. lia. Qed.

Import Product ProductAdmin.

(** X16.  A new product that was saved is the first row of the product
    listing, as soon as the clock is past the creation time of every stored
    product. *)
Theorem new_product_listed_first obj change env w (row : t) (w1 : World) :
  save_model obj change env w = (Return row, w1) →
  pk obj = None →
  (∀ k r, products w !! k = Some r → created_at r < clock w) →
  head (objects_all (A := Product.t) w1) = Some row.
Proof.
  intros Hsave Hnew Hclock.
  destruct (save_model_ends obj change env w)
    as (o & hook & w' & Hout & _ & _ & _ & _ & Hend).
  assert (Hkey : save_key obj w = next_pk (products w))
    by (unfold save_key; by rewrite Hnew).
  rewrite Hkey, next_pk_fresh in Hend.
  destruct Hend as [(E & Hp & _) | (e & E & _)]; rewrite E in Hsave; [|done].
  injection Hsave as <- <-.
  set (k := next_pk (products w)) in *.
  set (row := with_pk k (pre_save true (clock w) o)) in *.
  assert (Hperm : objects_all (A := Product.t) w'
                  ≡ₚ (map_to_list (products w')).*2)
    by apply (merge_sort_Permutation product_order).
  assert (Hsorted : StronglySorted product_order (objects_all (A := Product.t) w'))
    by apply (StronglySorted_merge_sort product_order).
  assert (Hmem : ∀ x, x ∈ objects_all (A := Product.t) w' →
                   x = row ∨ created_at x < clock w).
  { intros x Hx. rewrite Hperm in Hx.
    apply list_elem_of_fmap in Hx as ([k' x'] & -> & Hin).
    apply elem_of_map_to_list in Hin. rewrite Hp in Hin. cbn.
    destruct (decide (k = k')) as [<- | Hne].
    - rewrite lookup_insert_eq in Hin. left. by injection Hin.
    - rewrite lookup_insert_ne in Hin by done. right. by apply (Hclock k'). }
  assert (Hrow : row ∈ objects_all (A := Product.t) w').
  { rewrite Hperm. apply list_elem_of_fmap. exists (k, row). split; [done|].
    apply elem_of_map_to_list. rewrite Hp. apply lookup_insert_eq. }
  destruct (objects_all (A := Product.t) w') as [|h t]; [by apply elem_of_nil in Hrow|].
  cbn. f_equal.
  destruct (Hmem h ltac:(left)) as [-> | Hold]; [done|].
  apply elem_of_cons in Hrow as [-> | Hin]; [done|].
  apply StronglySorted_inv in Hsorted as [_ Hall].
  rewrite Forall_forall in Hall. specialize (Hall row Hin).
  subst row. cbn in Hall. unfold Product.ordering in Hall. cbn in Hall. lia.
Qed.

Lemma new_product_listed_first_witness :
  let row := with_pk 2 (pre_save true 1000
                          (set_stripe_product_id "prod_2" incense)) in
  let env := {| environ := ∅;
                stripe_Product_create := λ _ _ _ _, inr "prod_2";
                stripe_Price_create := λ _ _ _ _ _, inr "price_2";
                requests_post := λ _ _ _, inr 201 |} in
  (save_model incense false env shop_world).1 = Return row
  ∧ pk incense = None
  ∧ head (objects_all (A := Product.t)
            (save_model incense false env shop_world).2) = Some row.
Proof.
  cbv zeta.
  set (env := {| environ := ∅;
                 stripe_Product_create := λ _ _ _ _, inr "prod_2";
                 stripe_Price_create := λ _ _ _ _ _, inr "price_2";
                 requests_post := λ _ _ _, inr 201 |}).
  assert (E : save_model incense false env shop_world
              = (Return (with_pk 2 (pre_save true 1000
                                      (set_stripe_product_id "prod_2" incense))),
                 (save_model incense false env shop_world).2))
    by reflexivity.
  split; [by rewrite E|]. split; [reflexivity|].
  apply (new_product_listed_first incense false env shop_world _ _ E eq_refl).
  intros k r Hl. unfold shop_world in Hl. cbn [products] in Hl.
  apply lookup_singleton_Some in Hl as [_ <-]. by vm_compute.
Defined.
End listing_extras.

(** ** The amount for any price *)

Section truncation.
Import Product ProductAdmin.





End truncation.
